(** * OxyFloat: the cache-and-fetch pipeline for Argo profiling-float data

    A shallow embedding of [src/oxyfloat/OxyFloat.py].  The class's methods
    are Rocq functions with the source's names.  The local HDF cache file is
    a finite map from key to table that the methods thread explicitly; the
    remote services and the parsing libraries are a record of functions
    ([World]); Python exceptions are the [Raise] results of an error monad.
    Logging is not modelled: it changes no value and no control flow. *)

From Stdlib Require Import ZArith QArith Ascii String List Bool Lia.
From stdpp Require Import gmap strings list fin_maps.

Local Close Scope Q_scope.
Local Open Scope string_scope.
Local Open Scope list_scope.
Local Open Scope Z_scope.

(* ===================================================================== *)
(** * Part I: definitions                                                 *)
(* ===================================================================== *)

(** ** Exceptions and results *)

(** The exception classes that the modelled code raises, catches or lets
    through.  [IOError] stands for a failed open of a remote resource and
    [OtherError] for any exception class the source never names. *)
Inductive exn : Type :=
| KeyError
| AttributeError
| IndexError
| TypeError
| ValueError
| NameError
| IOError
| ConnectionError
| ServerError
| RequiredVariableNotPresent
| OtherError.

Inductive result (A : Type) : Type :=
| Ok (a : A)
| Raise (e : exn).
Arguments Ok {A} a.
Arguments Raise {A} e.

#[global] Instance exn_eq_dec : EqDecision exn.
Proof. solve_decision. Defined.

#[global] Instance result_ret : MRet result := fun _ a => Ok a.
#[global] Instance result_bind : MBind result := fun _ _ f r =>
  match r with
  | Ok a => f a
  | Raise e => Raise e
  end.

(** ** Python strings *)

Module Str.

(** [s.split(sep)] for a one-character separator: never the empty list. *)
Fixpoint split (sep : ascii) (s : string) : list string :=
  match s with
  | EmptyString => [EmptyString]
  | String c rest =>
      if Ascii.eqb c sep then EmptyString :: split sep rest
      else match split sep rest with
           | [] => [String c EmptyString]
           | w :: ws => String c w :: ws
           end
  end.

(** [sep.join(parts)] *)
Fixpoint join (sep : string) (parts : list string) : string :=
  match parts with
  | [] => EmptyString
  | p :: ps =>
      match ps with
      | [] => p
      | _ :: _ => p +:+ sep +:+ join sep ps
      end
  end.

(** [s[n:]] *)
Fixpoint drop (n : nat) (s : string) : string :=
  match n, s with
  | O, _ => s
  | S _, EmptyString => EmptyString
  | S n', String _ rest => drop n' rest
  end.

(** The rest of [s] after the prefix [p], when [s] starts with [p]. *)
Fixpoint strip_prefix (p s : string) : option string :=
  match p, s with
  | EmptyString, _ => Some s
  | String _ _, EmptyString => None
  | String a p', String b s' =>
      if Ascii.eqb a b then strip_prefix p' s' else None
  end.

(** [s.endswith(suf)] *)
Fixpoint ends_with (suf s : string) : bool :=
  String.eqb suf s ||
  match s with
  | EmptyString => false
  | String _ rest => ends_with suf rest
  end.

Definition digit_value (c : ascii) : Z := Z.of_N (N_of_ascii c) - 48.

(** [int(s)] on a string of ASCII digits. *)
Definition int_of_digits (s : string) : Z :=
  fold_left (fun acc c => 10 * acc + digit_value c) (list_ascii_of_string s) 0.

End Str.

(** ** The regular expressions the source compiles

    Three patterns occur: [[^a-zA-Z0-9_]] (substituted away),
    [max_profiles_([0-9]+)] (searched, group 1 read) and [nc$] (searched).
    Each is a literal, a character class, or both, so the engine is modelled
    for exactly these shapes. *)

Module Re.

Inductive class_item : Type :=
| Range (lo hi : ascii)
| Lit (c : ascii).

Record char_class : Type := CharClass {
  negated : bool;
  items : list class_item
}.

Definition item_matches (c : ascii) (it : class_item) : bool :=
  match it with
  | Range lo hi =>
      (N_of_ascii lo <=? N_of_ascii c)%N && (N_of_ascii c <=? N_of_ascii hi)%N
  | Lit d => Ascii.eqb c d
  end.

Definition class_matches (cls : char_class) (c : ascii) : bool :=
  xorb (negated cls) (existsb (item_matches c) (items cls)).

(** [re.compile(cls).sub(repl, s)] for a pattern that is one class:
    every matching character is replaced, the others are copied. *)
Fixpoint sub_class (cls : char_class) (repl s : string) : string :=
  match s with
  | EmptyString => EmptyString
  | String c rest =>
      if class_matches cls c then repl +:+ sub_class cls repl rest
      else String c (sub_class cls repl rest)
  end.

(** The longest prefix of [s] made of characters of [cls] (greedy [+]). *)
Fixpoint take_class (cls : char_class) (s : string) : string :=
  match s with
  | EmptyString => EmptyString
  | String c rest =>
      if class_matches cls c then String c (take_class cls rest)
      else EmptyString
  end.

(** Group 1 of the pattern [lit(cls+)] matched at the start of [s]. *)
Definition match_lit_group (lit : string) (cls : char_class) (s : string)
  : option string :=
  match Str.strip_prefix lit s with
  | None => None
  | Some rest =>
      match take_class cls rest with
      | EmptyString => None
      | String c g => Some (String c g)
      end
  end.

(** [re.compile(lit(cls+)).search(s)]: the leftmost match; [None] when
    the pattern matches nowhere.  The result is [m.group(1)]. *)
Fixpoint search_lit_group (lit : string) (cls : char_class) (s : string)
  : option string :=
  match match_lit_group lit cls s with
  | Some g => Some g
  | None =>
      match s with
      | EmptyString => None
      | String _ rest => search_lit_group lit cls rest
      end
  end.

Definition newline : ascii := ascii_of_nat 10.

(** [re.compile(lit + "$").search(s)] as a truth value: [$] matches at the
    end of the string and just before a final newline. *)
Definition search_lit_at_end (lit s : string) : bool :=
  Str.ends_with lit s || Str.ends_with (lit +:+ String newline EmptyString) s.

(** [[^a-zA-Z0-9_]] *)
Definition not_word : char_class :=
  CharClass true [Range "a" "z"; Range "A" "Z"; Range "0" "9"; Lit "_"]%char.

(** [[0-9]] *)
Definition digit : char_class := CharClass false [Range "0" "9"]%char.

End Re.

(** ** Tables (pandas) *)

(** A cell of a table: a missing value, a number or a string.  Floating
    point numbers are abstracted to rationals; the pipeline only moves them
    around, except for the rounding of pressure levels. *)
Inductive cell : Type :=
| NaN
| Num (q : Q)
| Str (s : string).

Module Pandas.

(** A row label is a tuple of cells: one cell for the default integer
    index of a parsed text file, five for the profile index
    (wmo, time, lon, lat, pressure). *)
Definition label : Type := list cell.

Record Series : Type := mkSeries {
  s_index : list label;
  s_values : list cell
}.

(** Columns are kept in insertion order. *)
Record DataFrame : Type := mkDataFrame {
  df_index : list label;
  df_columns : list (string * list cell)
}.

(** [pd.DataFrame()] *)
Definition empty : DataFrame := mkDataFrame [] [].

Definition is_nan (c : cell) : bool :=
  match c with
  | NaN => true
  | _ => false
  end.

Fixpoint lookup_column (name : string) (cols : list (string * list cell))
  : option (list cell) :=
  match cols with
  | [] => None
  | (n, vals) :: rest =>
      if String.eqb n name then Some vals else lookup_column name rest
  end.

(** [df[name]]: the column, or [KeyError]. *)
Definition getitem (df : DataFrame) (name : string) : result Series :=
  match lookup_column name (df_columns df) with
  | Some vals => Ok (mkSeries (df_index df) vals)
  | None => Raise KeyError
  end.

(** [s.dropna()] *)
Definition dropna (s : Series) : Series :=
  let keep := map (fun c => negb (is_nan c)) (s_values s) in
  mkSeries (map snd (filter (fun p => fst p = true) (combine keep (s_index s))))
           (filter (fun c => is_nan c = false) (s_values s)).

(** [s.empty] *)
Definition series_empty (s : Series) : bool :=
  match s_values s with
  | [] => true
  | _ :: _ => false
  end.

Fixpoint replace_column (name : string) (vals : list cell)
  (cols : list (string * list cell)) : list (string * list cell) :=
  match cols with
  | [] => [(name, vals)]
  | (n, old) :: rest =>
      if String.eqb n name then (n, vals) :: rest
      else (n, old) :: replace_column name vals rest
  end.

(** [df[name] = s].  A frame without rows takes the index of the series
    (columns it already has are filled with missing values); otherwise
    the values are stored against the frame's own index.  Every series
    this program assigns is built over the same index as the frame, so
    label alignment is the identity and is not modelled. *)
Definition setitem (df : DataFrame) (name : string) (s : Series) : DataFrame :=
  match df_index df with
  | [] =>
      mkDataFrame (s_index s)
        (replace_column name (s_values s)
           (map (fun c => (fst c, replicate (length (s_index s)) NaN))
                (df_columns df)))
  | _ :: _ =>
      mkDataFrame (df_index df) (replace_column name (s_values s) (df_columns df))
  end.

Definition column_or_nan (name : string) (df : DataFrame) : list cell :=
  match lookup_column name (df_columns df) with
  | Some vals => vals
  | None => replicate (length (df_index df)) NaN
  end.

Definition column_names (df : DataFrame) : list string :=
  map fst (df_columns df).

(** [a.append(b)]: the rows of [a] then the rows of [b], over the union
    of the columns (those of [a] first), a missing value where a frame
    lacks a column. *)
Definition append (a b : DataFrame) : DataFrame :=
  let names :=
    column_names a ++
    filter (fun n => lookup_column n (df_columns a) = None) (column_names b) in
  mkDataFrame (df_index a ++ df_index b)
    (map (fun n => (n, column_or_nan n a ++ column_or_nan n b)) names).

(** The entries of [l] whose mask bit is set (boolean indexing). *)
Fixpoint select {A : Type} (mask : list bool) (l : list A) : list A :=
  match mask, l with
  | m :: mask', x :: l' => if m then x :: select mask' l' else select mask' l'
  | _, _ => []
  end.

Definition select_rows (mask : list bool) (df : DataFrame) : DataFrame :=
  mkDataFrame (select mask (df_index df))
    (map (fun c => (fst c, select mask (snd c))) (df_columns df)).

(** Comparison of a cell with an integer literal inside [df.query].
    A missing value compares unequal to everything and is not [>=]
    anything; columns of strings are outside the modelled behaviour, and
    so are literals that do not fit a 64-bit integer
    ([Shape.query_literal], stated further on), on which the query engine
    raises instead of comparing. *)
Definition cell_eq (c : cell) (n : Z) : bool :=
  match c with
  | Num q => Qeq_bool q (inject_Z n)
  | _ => false
  end.

Definition cell_ne (c : cell) (n : Z) : bool := negb (cell_eq c n).

Definition cell_ge (c : cell) (n : Z) : bool :=
  match c with
  | Num q => Qle_bool (inject_Z n) q
  | _ => false
  end.

(** A column named in a query expression: [NameError] when undefined. *)
Definition query_column (df : DataFrame) (name : string) : result (list cell) :=
  match lookup_column name (df_columns df) with
  | Some vals => Ok vals
  | None => Raise NameError
  end.

(** [df.query('(OXYGEN == 1) & (GREYLIST == 0) & (AGE != 0) & (AGE >= n)')] *)
Definition query_oxy (df : DataFrame) (n : Z) : result DataFrame :=
  oxygen ← query_column df "OXYGEN";
  greylist ← query_column df "GREYLIST";
  age ← query_column df "AGE";
  let m1 := map (fun c => cell_eq c 1) oxygen in
  let m2 := map (fun c => cell_eq c 0) greylist in
  let m3 := map (fun c => cell_ne c 0) age in
  let m4 := map (fun c => cell_ge c n) age in
  let mask := zip_with andb (zip_with andb (zip_with andb m1 m2) m3) m4 in
  Ok (select_rows mask df).

(** [s.tolist()] *)
Definition tolist (s : Series) : list cell := s_values s.

End Pandas.

Abbreviation DataFrame := Pandas.DataFrame.

(** ** Numbers (Python builtins) *)

(** The integer nearest to [q], ties away from zero. *)
Definition round_half_away (q : Q) : Z :=
  let n := Qnum q in
  let d := Z.pos (Qden q) in
  if 0 <=? n then (2 * n + d) / (2 * d) else - ((2 * (- n) + d) / (2 * d)).

(** [round(x, 1)] *)
Definition round1 (c : cell) : result cell :=
  match c with
  | NaN => Ok NaN
  | Num q => Ok (Num (Qred (Qmake (round_half_away (Qmult q (inject_Z 10))) 10)))
  | Str _ => Raise TypeError
  end.

(** [not x] for [x] that is [None] or an integer. *)
Definition py_not (x : option Z) : bool :=
  match x with
  | None => true
  | Some n => n =? 0
  end.

(** ** Remote datasets (xray over OPeNDAP) *)

(** [ds[v].values[0]]: a scalar for a variable along the profile dimension
    only, a vector for a variable along profile and level. *)
Inductive values0 : Type :=
| Scalar (c : cell)
| Vector (cs : list cell).

(** A dataset maps each variable it has to the outcome of reading the
    variable's values: the data are fetched lazily, so a variable can be
    listed in [ds.keys()] and still fail to load. *)
Abbreviation Dataset := (gmap string (result values0)).

(** [v in ds.keys()] *)
Definition ds_has (ds : Dataset) (v : string) : bool :=
  match ds !! v with
  | Some _ => true
  | None => false
  end.

(** [ds[v].values[0]] *)
Definition ds_values0 (ds : Dataset) (v : string) : result values0 :=
  match ds !! v with
  | Some r => r
  | None => Raise KeyError
  end.

Definition ds_scalar (ds : Dataset) (v : string) : result cell :=
  x ← ds_values0 ds v;
  match x with
  | Scalar c => Ok c
  | Vector _ => Raise TypeError
  end.

Definition ds_vector (ds : Dataset) (v : string) : result (list cell) :=
  x ← ds_values0 ds v;
  match x with
  | Vector cs => Ok cs
  | Scalar _ => Raise TypeError
  end.

(** ** The outside world *)

(** What the pipeline reads from outside the process, and the parsers it
    delegates to.  Each field is the named library call; a [Raise] is the
    exception the call ends with. *)
Record World : Type := mkWorld {
  (** [requests.get(url).text] *)
  requests_get : string -> result string;
  (** [urllib2.urlopen(url)], read to the end *)
  urlopen : string -> result string;
  (** [pd.read_csv(text, comment=c)] *)
  read_csv : option ascii -> string -> result DataFrame;
  (** [BeautifulSoup(text, 'html.parser')]: the [urlpath] attribute of
      every [dataset] element that has one, in document order *)
  soup_dataset_urlpaths : string -> list string;
  (** [xray.open_dataset(url)] *)
  open_dataset : string -> result Dataset
}.

(** The local HDF file: named tables. *)
Abbreviation Store := (gmap string DataFrame).

(** Methods that touch the cache file: the file's contents go in and come
    out; an exception leaves the contents as they were when it was raised. *)
Definition M (A : Type) : Type := Store -> result A * Store.

#[global] Instance M_ret : MRet M := fun _ a st => (Ok a, st).
#[global] Instance M_bind : MBind M := fun _ _ f m st =>
  match m st with
  | (Ok a, st') => f a st'
  | (Raise e, st') => (Raise e, st')
  end.

(** A computation that does not touch the file. *)
Definition lift {A : Type} (r : result A) : M A := fun st => (r, st).

(** [try: body  except exc: handler] *)
Definition try_except {A : Type} (body : M A) (exc : exn) (handler : M A) : M A :=
  fun st =>
    match body st with
    | (Ok a, st') => (Ok a, st')
    | (Raise e, st') =>
        if decide (e = exc) then handler st' else (Raise e, st')
    end.

(** ** The class [OxyFloat] *)

(** The attributes [__init__] sets.  [cache_file_requested] exists only
    when a cache file was passed to the constructor: reading it on an
    object without it raises [AttributeError], which is [None] here. *)
Record OxyFloat : Type := mkOxyFloat {
  status_url : string;
  global_url : string;
  thredds_url : string;
  variables : gset string;
  _oxygen_required : bool;
  cache_file_requested : option string;
  cache_file : string
}.

Definition _STATUS : string := "status".
Definition _GLOBAL_META : string := "global_meta".
Definition _coordinates : gset string :=
  {[ "PRES_ADJUSTED"; "LATITUDE"; "LONGITUDE"; "JULD" ]}.
Definition _MAX_PROFILES : Z := 10000000000.

(** The length of [_log_levels]; [_log_levels[verbosity]] raises
    [IndexError] outside [-4 .. 3]. *)
Definition _log_levels_len : Z := 4.

(** The constructor.  [module_dir] is the directory of the installed
    module, where the default cache file lives. *)
Definition __init__ (module_dir : string) (verbosity : Z)
  (cache_file : option string) (oxygen_required : bool)
  (status_url global_url thredds_url : string) (variables : list string)
  : result OxyFloat :=
  if (verbosity <? - _log_levels_len) || (_log_levels_len <=? verbosity)
  then Raise IndexError
  else
    match cache_file with
    | Some (String c f) =>
        Ok (mkOxyFloat status_url global_url thredds_url (list_to_set variables)
              oxygen_required (Some (String c f)) (String c f))
    | _ =>
        Ok (mkOxyFloat status_url global_url thredds_url (list_to_set variables)
              oxygen_required None (module_dir +:+ "/oxyfloat_cache.hdf"))
    end.

(** *** The local store *)

(** [store[name] = df] on the file, opened and closed around the write.
    The file is a finite map; that is what the HDF store is on the names
    it accepts as node names ([Shape.accepted_key], stated further on),
    which the reserved names [status] and [global_meta] and the keys of
    THREDDS locators are.  On other names (the empty one, say) the real
    store raises errors of its own, which are not modelled. *)
Definition _put_df (self : OxyFloat) (df : DataFrame) (name : string) : M unit :=
  fun store => (Ok tt, <[name := df]> store).

(** [store[name]] on the file, opened and closed around the read;
    [KeyError] when the file has no such name.  As for [_put_df], the
    model is that of the names the store accepts. *)
Definition _get_df (self : OxyFloat) (name : string) : M DataFrame :=
  fun store =>
    match store !! name with
    | Some df => (Ok df, store)
    | None => (Raise KeyError, store)
    end.

(** *** Remote readers *)

Definition _status_to_df (self : OxyFloat) (world : World) : result DataFrame :=
  text ← requests_get world (status_url self);
  read_csv world None (Str.drop 1 text).

Definition _global_meta_to_df (self : OxyFloat) (world : World) : result DataFrame :=
  r ← urlopen world (global_url self);
  read_csv world (Some "#"%char) r.

(** *** The profile transformer *)

(** The loop that checks the dataset for the desired variables. *)
Fixpoint check_variables (ds : Dataset) (vs : list string) : result unit :=
  match vs with
  | [] => Ok tt
  | v :: vs' =>
      if ds_has ds v then check_variables ds vs'
      else Raise RequiredVariableNotPresent
  end.

Fixpoint round_all (pressures : list cell) : result (list cell) :=
  match pressures with
  | [] => Ok []
  | p :: ps =>
      r ← round1 p;
      rs ← round_all ps;
      Ok (r :: rs)
  end.

(** The list comprehension that builds the index tuples.  The pressure
    vector is evaluated first; the three scalars are read inside the
    comprehension, so not at all when there is no pressure level. *)
Definition index_tuples (ds : Dataset) (wmo : string) : result (list Pandas.label) :=
  pressures ← ds_vector ds "PRES_ADJUSTED";
  match pressures with
  | [] => Ok []
  | _ :: _ =>
      juld ← ds_scalar ds "JULD";
      lon ← ds_scalar ds "LONGITUDE";
      lat ← ds_scalar ds "LATITUDE";
      rounded ← round_all pressures;
      Ok (map (fun pres => [Str wmo; juld; lon; lat; pres]) rounded)
  end.

(** [pd.Series(ds[v].values[0], index=indices)]: a scalar is repeated
    along the index, a vector must have the length of the index. *)
Definition make_series (ds : Dataset) (v : string) (indices : list Pandas.label)
  : result Pandas.Series :=
  x ← ds_values0 ds v;
  match x with
  | Scalar c => Ok (Pandas.mkSeries indices (replicate (length indices) c))
  | Vector cs =>
      if Nat.eqb (length cs) (length indices)
      then Ok (Pandas.mkSeries indices cs)
      else Raise ValueError
  end.

(** The loop that adds the non-coordinate variables: a [KeyError] or a
    [ServerError] while reading one variable is logged and the variable is
    left out of the table. *)
Fixpoint add_variables (ds : Dataset) (indices : list Pandas.label)
  (vs : list string) (df : DataFrame) : result DataFrame :=
  match vs with
  | [] => Ok df
  | v :: vs' =>
      match make_series ds v indices with
      | Ok s => add_variables ds indices vs' (Pandas.setitem df v s)
      | Raise KeyError => add_variables ds indices vs' df
      | Raise ServerError => add_variables ds indices vs' df
      | Raise e => Raise e
      end
  end.

(** [a ^ b] on sets *)
Definition symmetric_difference (a b : gset string) : gset string :=
  (a ∖ b) ∪ (b ∖ a).

Definition _profile_to_dataframe (self : OxyFloat) (world : World)
  (wmo url : string) : result DataFrame :=
  ds ← open_dataset world url;
  _ ← check_variables ds (elements (variables self));
  indices ← index_tuples ds wmo;
  add_variables ds indices
    (elements (symmetric_difference (variables self) _coordinates))
    Pandas.empty.

(** *** The key normalizer *)

Definition _url_to_naturalname (self : OxyFloat) (url : string) : string :=
  Re.sub_class Re.not_word "" url.

(** *** Eligible floats *)

Definition get_oxy_floats_from_status (self : OxyFloat) (world : World)
  (age_gte : Z) : M (list cell) :=
  df ← try_except (_get_df self _STATUS) KeyError
         (fetched ← lift (_status_to_df self world);
          _ ← _put_df self fetched _STATUS;
          _get_df self _STATUS);
  odf ← lift (Pandas.query_oxy df age_gte);
  wmo ← lift (Pandas.getitem odf "WMO");
  mret (Pandas.tolist wmo).

(** *** Data assembly centres *)

(** The loop over the rows of the [file] column. *)
Fixpoint dac_rows (self : OxyFloat) (desired_float_numbers : list string)
  (files : list cell) (dac_urls : gmap string string)
  : result (gmap string string) :=
  match files with
  | [] => Ok dac_urls
  | Str file :: rest =>
      match Str.split "/" file !! 1%nat with
      | None => Raise IndexError
      | Some floatNum =>
          if bool_decide (floatNum ∈ desired_float_numbers) then
            let url :=
              thredds_url self +:+ Str.join "/" (take 2 (Str.split "/" file))
                +:+ "/profiles/catalog.xml" in
            dac_rows self desired_float_numbers rest (<[floatNum := url]> dac_urls)
          else dac_rows self desired_float_numbers rest dac_urls
      end
  | _ :: _ => Raise AttributeError
  end.

Definition get_dac_urls (self : OxyFloat) (world : World)
  (desired_float_numbers : list string) : M (gmap string string) :=
  df ← try_except (_get_df self _GLOBAL_META) KeyError
         (fetched ← lift (_global_meta_to_df self world);
          _ ← _put_df self fetched _GLOBAL_META;
          _get_df self _GLOBAL_META);
  files ← lift (Pandas.getitem df "file");
  lift (dac_rows self desired_float_numbers (Pandas.s_values files) ∅).

(** *** The catalog reader *)

Definition get_profile_opendap_urls (self : OxyFloat) (world : World)
  (catalog_url : string) : result (list string) :=
  match requests_get world catalog_url with
  | Raise ConnectionError => Ok []
  | Raise e => Raise e
  | Ok text =>
      let base_url :=
        Str.join "/" (take 4 (Str.split "/" catalog_url)) +:+ "/dodsC/" in
      Ok (map (fun urlpath => base_url +:+ urlpath)
            (filter (fun p => Re.search_lit_at_end "nc" p = true)
               (soup_dataset_urlpaths world text)))
  end.

(** *** The profile cap *)

Definition _get_cache_file_parms (self : OxyFloat) (max_profiles : option Z)
  : option Z :=
  match cache_file_requested self with
  | None => max_profiles
  | Some name =>
      match Re.search_lit_group "max_profiles_" Re.digit name with
      | None => max_profiles
      | Some group1 =>
          let cache_file_max := Str.int_of_digits group1 in
          if py_not max_profiles
             || match max_profiles with
                | Some n => n >? cache_file_max
                | None => false
                end
          then Some cache_file_max
          else max_profiles
      end
  end.

(** [if not max_profiles: max_profiles = self._MAX_PROFILES] *)
Definition or_MAX_PROFILES (max_profiles : option Z) : Z :=
  match max_profiles with
  | Some n => if py_not (Some n) then _MAX_PROFILES else n
  | None => _MAX_PROFILES
  end.

(** The cap [get_float_dataframe] computes before it loops. *)
Definition effective_max_profiles (self : OxyFloat) (max_profiles : option Z) : Z :=
  or_MAX_PROFILES (_get_cache_file_parms self max_profiles).

(** *** Oxygen validation and the save step *)

Definition _validate_oxygen (self : OxyFloat) (df : DataFrame) (url : string)
  : result DataFrame :=
  doxy ← Pandas.getitem df "DOXY_ADJUSTED";
  if Pandas.series_empty (Pandas.dropna doxy) then Ok Pandas.empty else Ok df.

(** The body of the [try] in [_save_profile]. *)
Definition transform_and_validate (self : OxyFloat) (world : World)
  (wmo url : string) : result DataFrame :=
  df ← _profile_to_dataframe self world wmo url;
  if _oxygen_required self then _validate_oxygen self df url else Ok df.

Definition _save_profile (self : OxyFloat) (world : World) (url : string)
  (count : Z) (opendap_urls : list string) (wmo key : string) : M DataFrame :=
  df ← try_except (lift (transform_and_validate self world wmo url))
         RequiredVariableNotPresent
         (mret Pandas.empty);
  _ ← _put_df self df key;
  mret df.

(** *** The orchestrator *)

(** What the inner loop does with one locator: cache read, save on a miss,
    append to the merged table. *)
Definition process_profile (self : OxyFloat) (world : World) (wmo : string)
  (opendap_urls : list string) (i : Z) (url : string) (float_df : DataFrame)
  : M DataFrame :=
  let key := _url_to_naturalname self url in
  df ← try_except (_get_df self key) KeyError
         (_save_profile self world url i opendap_urls wmo key);
  mret (Pandas.append float_df df).

(** The inner loop, [for i, url in enumerate(opendap_urls)], from index [i]
    on, with its [break]. *)
Fixpoint profiles_loop (self : OxyFloat) (world : World) (wmo : string)
  (opendap_urls : list string) (max_profiles : Z) (i : Z)
  (rest : list string) (float_df : DataFrame) : M DataFrame :=
  match rest with
  | [] => mret float_df
  | url :: rest' =>
      if i >? max_profiles then mret float_df
      else
        float_df' ← process_profile self world wmo opendap_urls i url float_df;
        profiles_loop self world wmo opendap_urls max_profiles (i + 1) rest' float_df'
  end.

(** The outer loop over the items of [dac_urls]. *)
Fixpoint floats_loop (self : OxyFloat) (world : World) (max_profiles : Z)
  (dac_items : list (string * string)) (float_df : DataFrame) : M DataFrame :=
  match dac_items with
  | [] => mret float_df
  | (wmo, dac_url) :: rest =>
      opendap_urls ← lift (get_profile_opendap_urls self world dac_url);
      float_df' ← profiles_loop self world wmo opendap_urls max_profiles 0
                    opendap_urls float_df;
      floats_loop self world max_profiles rest float_df'
  end.

Definition get_float_dataframe (self : OxyFloat) (world : World)
  (wmo_list : list string) (max_profiles : option Z) : M DataFrame :=
  let max_profiles := effective_max_profiles self max_profiles in
  dac_urls ← get_dac_urls self world wmo_list;
  floats_loop self world max_profiles (map_to_list dac_urls) Pandas.empty.

(** ** Reference definitions

    What the specification says in its own words, to compare the methods
    against. *)

Module Spec.

(** The alphanumeric-and-underscore set. *)
Definition allowed (c : ascii) : bool :=
  let n := nat_of_ascii c in
  ((48 <=? n) && (n <=? 57) || (65 <=? n) && (n <=? 90)
   || (97 <=? n) && (n <=? 122) || (n =? 95))%nat.

(** The locator without the characters outside the set. *)
Fixpoint strip (s : string) : string :=
  match s with
  | EmptyString => EmptyString
  | String c rest => if allowed c then String c (strip rest) else strip rest
  end.

(** A float status entry.  A flag is set when it is 1 and clear when
    it is 0. *)
Record StatusRow : Type := mkStatusRow {
  WMO : Z;
  OXY : Z;
  GREY : Z;
  AGE : Z
}.

Definition eligible (min_age : Z) (r : StatusRow) : bool :=
  (OXY r =? 1) && (GREY r =? 0) && negb (AGE r =? 0) && (min_age <=? AGE r).

Definition int_cell (n : Z) : cell := Num (inject_Z n).

Definition eligible_floats (min_age : Z) (rows : list StatusRow) : list cell :=
  map (fun r => int_cell (WMO r)) (filter (fun r => eligible min_age r = true) rows).

(** The table [df] holds the status entries [rows], in row order, in its
    columns WMO, OXYGEN, GREYLIST and AGE (it may have other columns). *)
Definition holds_status (df : DataFrame) (rows : list StatusRow) : Prop :=
  Pandas.lookup_column "WMO" (Pandas.df_columns df)
    = Some (map (fun r => int_cell (WMO r)) rows)
  /\ Pandas.lookup_column "OXYGEN" (Pandas.df_columns df)
    = Some (map (fun r => int_cell (OXY r)) rows)
  /\ Pandas.lookup_column "GREYLIST" (Pandas.df_columns df)
    = Some (map (fun r => int_cell (GREY r)) rows)
  /\ Pandas.lookup_column "AGE" (Pandas.df_columns df)
    = Some (map (fun r => int_cell (AGE r)) rows).

(** A cap on the number of profiles, or none. *)
Inductive cap : Type :=
| Bounded (n : Z)
| Unbounded.

(** min(caller-supplied cap, cache-file-encoded cap, else unbounded) *)
Definition effective_cap (caller file : option Z) : cap :=
  match caller, file with
  | Some a, Some b => Bounded (Z.min a b)
  | Some a, None => Bounded a
  | None, Some b => Bounded b
  | None, None => Unbounded
  end.

(** The number the code loops with: [_MAX_PROFILES] stands for no cap. *)
Definition cap_value (c : cap) : Z :=
  match c with
  | Bounded n => n
  | Unbounded => _MAX_PROFILES
  end.

(** The inner loop without its [break]: every locator is processed. *)
Fixpoint process_each (self : OxyFloat) (world : World) (wmo : string)
  (opendap_urls : list string) (i : Z) (rest : list string)
  (float_df : DataFrame) : M DataFrame :=
  match rest with
  | [] => mret float_df
  | url :: rest' =>
      float_df' ← process_profile self world wmo opendap_urls i url float_df;
      process_each self world wmo opendap_urls (i + 1) rest' float_df'
  end.

End Spec.

(** The cap the name of the requested cache file encodes, if any: group 1
    of the first match of [max_profiles_([0-9]+)], as
    [_get_cache_file_parms] reads it. *)
Definition cache_file_max (self : OxyFloat) : option Z :=
  match cache_file_requested self with
  | None => None
  | Some name =>
      match Re.search_lit_group "max_profiles_" Re.digit name with
      | None => None
      | Some group1 => Some (Str.int_of_digits group1)
      end
  end.

(** ** Concrete objects, tables and worlds *)

Module Fixture.

Definition default_variables : list string :=
  ["TEMP_ADJUSTED"; "PSAL_ADJUSTED"; "DOXY_ADJUSTED";
   "PRES_ADJUSTED"; "LATITUDE"; "LONGITUDE"; "JULD"].

(** [OxyFloat()]: every constructor argument at its default. *)
Definition default_object : OxyFloat :=
  mkOxyFloat
    "http://argo.jcommops.org/FTPRoot/Argo/Status/argo_all.txt"
    "ftp://ftp.ifremer.fr/ifremer/argo/ar_index_global_meta.txt"
    "http://tds0.ifremer.fr/thredds/catalog/CORIOLIS-ARGO-GDAC-OBS"
    (list_to_set default_variables)
    true None "/site-packages/oxyfloat/oxyfloat_cache.hdf".

(** [OxyFloat(cache_file=name)] *)
Definition object_with_cache_file (name : string) : OxyFloat :=
  mkOxyFloat (status_url default_object) (global_url default_object)
    (thredds_url default_object) (variables default_object)
    true (Some name) name.

(** The status table of the specification's example. *)
Definition status_rows : list Spec.StatusRow :=
  [Spec.mkStatusRow 1 1 0 340; Spec.mkStatusRow 2 0 0 500;
   Spec.mkStatusRow 3 1 1 500; Spec.mkStatusRow 4 1 0 0].

Definition status_table : DataFrame :=
  Pandas.mkDataFrame
    (map (fun i => [Spec.int_cell i]) [0; 1; 2; 3])
    [("WMO", map (fun r => Spec.int_cell (Spec.WMO r)) status_rows);
     ("OXYGEN", map (fun r => Spec.int_cell (Spec.OXY r)) status_rows);
     ("GREYLIST", map (fun r => Spec.int_cell (Spec.GREY r)) status_rows);
     ("AGE", map (fun r => Spec.int_cell (Spec.AGE r)) status_rows)].

(** The metadata index: one float. *)
Definition meta_table : DataFrame :=
  Pandas.mkDataFrame [[Spec.int_cell 0]]
    [("file", [Str "aoml/1900722/1900722_meta.nc"])].

Definition catalog_url : string :=
  "http://tds0.ifremer.fr/thredds/catalog/CORIOLIS-ARGO-GDAC-OBSaoml/1900722/profiles/catalog.xml".

(** The catalog of the float: five profile files (and one entry that is
    not a NetCDF file). *)
Definition urlpaths : list string :=
  ["CORIOLIS-ARGO-GDAC-OBS/aoml/1900722/profiles/D1900722_001.nc";
   "CORIOLIS-ARGO-GDAC-OBS/aoml/1900722/profiles/D1900722_002.nc";
   "CORIOLIS-ARGO-GDAC-OBS/aoml/1900722/profiles/D1900722_003.nc";
   "CORIOLIS-ARGO-GDAC-OBS/aoml/1900722/profiles/readme.txt";
   "CORIOLIS-ARGO-GDAC-OBS/aoml/1900722/profiles/D1900722_004.nc";
   "CORIOLIS-ARGO-GDAC-OBS/aoml/1900722/profiles/D1900722_005.nc"].

Definition locator (n : string) : string :=
  "http://tds0.ifremer.fr/thredds/dodsC/CORIOLIS-ARGO-GDAC-OBS/aoml/1900722/profiles/D1900722_00"
    +:+ n +:+ ".nc".

Definition key_of (n : string) : string :=
  "httptds0ifremerfrthreddsdodsCCORIOLISARGOGDACOBSaoml1900722profilesD1900722_00"
    +:+ n +:+ "nc".

Definition tenths (n : Z) : cell := Num (Qmake n 10).

(** A profile with two pressure levels and every default variable. *)
Definition profile : Dataset :=
  list_to_map
    [("TEMP_ADJUSTED", Ok (Vector [tenths 251; tenths 187]));
     ("PSAL_ADJUSTED", Ok (Vector [tenths 349; tenths 351]));
     ("DOXY_ADJUSTED", Ok (Vector [tenths 2104; NaN]));
     ("PRES_ADJUSTED", Ok (Vector [Num (Qmake 504 100); Num (Qmake 1025 100)]));
     ("LATITUDE", Ok (Scalar (tenths 213)));
     ("LONGITUDE", Ok (Scalar (tenths (-1580))));
     ("JULD", Ok (Scalar (Spec.int_cell 20000)))].

(** The same profile on a server that lists the oxygen variable and
    fails when its values are read. *)
Definition profile_oxygen_unreadable : Dataset :=
  <["DOXY_ADJUSTED" := Raise ServerError]> profile.

(** The same profile without its time coordinate. *)
Definition profile_without_juld : Dataset := delete "JULD" profile.

(** The same profile with no oxygen value at any level. *)
Definition profile_oxygen_null : Dataset :=
  <["DOXY_ADJUSTED" := Ok (Vector [NaN; NaN])]> profile.

(** The index of the table made from any of these profiles. *)
Definition profile_index : list Pandas.label :=
  [[Str "1900722"; Spec.int_cell 20000; tenths (-1580); tenths 213; Spec.int_cell 5];
   [Str "1900722"; Spec.int_cell 20000; tenths (-1580); tenths 213; tenths 103]].

(** The tables [_profile_to_dataframe] makes from [profile],
    [profile_oxygen_unreadable] and [profile_oxygen_null]. *)
Definition table : DataFrame :=
  Pandas.mkDataFrame profile_index
    [("TEMP_ADJUSTED", [tenths 251; tenths 187]);
     ("DOXY_ADJUSTED", [tenths 2104; NaN]);
     ("PSAL_ADJUSTED", [tenths 349; tenths 351])].

Definition table_without_oxygen : DataFrame :=
  Pandas.mkDataFrame profile_index
    [("TEMP_ADJUSTED", [tenths 251; tenths 187]);
     ("PSAL_ADJUSTED", [tenths 349; tenths 351])].

Definition table_oxygen_null : DataFrame :=
  Pandas.mkDataFrame profile_index
    [("TEMP_ADJUSTED", [tenths 251; tenths 187]);
     ("DOXY_ADJUSTED", [NaN; NaN]);
     ("PSAL_ADJUSTED", [tenths 349; tenths 351])].

(** A world with the status table, the metadata index, the catalog of
    the float and the dataset [ds] behind every locator.  Every other
    HTTP read fails to connect. *)
Definition world_with (ds : Dataset) : World :=
  mkWorld
    (fun url => if String.eqb url catalog_url then Ok "<catalog/>"
                else if String.eqb url (status_url default_object)
                     then Ok "?WMO,OXYGEN,GREYLIST,AGE"
                     else Raise ConnectionError)
    (fun _ => Ok "file")
    (fun comment _ =>
       match comment with
       | Some _ => Ok meta_table
       | None => Ok status_table
       end)
    (fun _ => urlpaths)
    (fun _ => Ok ds).

(** A world that still serves the catalogs of [world_with] and nothing
    else: no status, no metadata index, no dataset. *)
Definition catalogs_only : World :=
  mkWorld
    (requests_get (world_with profile))
    (fun _ => Raise IOError)
    (fun _ _ => Raise OtherError)
    (fun _ => urlpaths)
    (fun _ => Raise IOError).

(** The cache file after a first run on the empty file, with the cap 2. *)
Definition filled_store : Store :=
  (get_float_dataframe default_object (world_with profile) ["1900722"] (Some 2) ∅).2.

(** A world whose HTTP reads all end in an error that is not a
    connection error (a read timeout, say). *)
Definition timing_out : World :=
  mkWorld
    (fun _ => Raise OtherError)
    (fun _ => Raise IOError)
    (fun _ _ => Raise OtherError)
    (fun _ => [])
    (fun _ => Raise IOError).

(** [OxyFloat(oxygen_required=False)] *)
Definition oxygen_optional : OxyFloat :=
  mkOxyFloat (status_url default_object) (global_url default_object)
    (thredds_url default_object) (variables default_object)
    false None (cache_file default_object).

End Fixture.

(** ** The naming convention of cache files *)

(** The character of the decimal digit [d]. *)
Definition digit_char (d : Z) : ascii := ascii_of_N (Z.to_N (48 + d)).

(** The decimal digits of [n >= 0] in front of [acc], most significant
    first; [fuel] bounds the number of digits. *)
Fixpoint decimal (fuel : nat) (n : Z) (acc : string) : string :=
  match fuel with
  | O => acc
  | S fuel' =>
      let acc' := String (digit_char (n mod 10)) acc in
      if n <? 10 then acc' else decimal fuel' (n / 10) acc'
  end.

(** ['{:d}'.format(n)] *)
Definition format_d (n : Z) : string :=
  if n <? 0 then String "-" (decimal (S (Z.to_nat (Z.log2 (- n)))) (- n) "")
  else decimal (S (Z.to_nat (Z.log2 n))) n "".

(** [cache_file_fmt.format(age, max_profiles)], with [age] as the text the
    [{}] field prints. *)
Definition cache_file_fmt (age : string) (max_profiles : Z) : string :=
  "oxyfloat_age_" +:+ age +:+ "_max_profiles_" +:+ format_d max_profiles +:+ ".hdf".

(** ** Vocabulary of the further properties *)

Module Shape.

(** Every column of the table has one cell per row. *)
Definition rectangular (df : DataFrame) : Prop :=
  Forall (fun c => length (snd c) = length (Pandas.df_index df))
         (Pandas.df_columns df).

(** The text has no occurrence of the character. *)
Fixpoint lacks (c : ascii) (s : string) : bool :=
  match s with
  | EmptyString => true
  | String a rest => negb (Ascii.eqb a c) && lacks c rest
  end.

(** Every character of the text is in the alphanumeric-and-underscore set. *)
Fixpoint natural (s : string) : bool :=
  match s with
  | EmptyString => true
  | String a rest => Spec.allowed a && natural rest
  end.

Definition is_letter (c : ascii) : bool :=
  let n := nat_of_ascii c in
  ((65 <=? n) && (n <=? 90) || (97 <=? n) && (n <=? 122))%nat.

(** The names the HDF store takes as node names without complaint and
    that the finite-map model of the cache file is meant for: a letter,
    then letters, digits and underscores. *)
Definition accepted_key (name : string) : bool :=
  match name with
  | EmptyString => false
  | String c rest => is_letter c && natural rest
  end.

(** The integer literals the query engine compares: those of a 64-bit
    integer and of its negation. *)
Definition query_literal (n : Z) : Prop := - 2 ^ 63 < n < 2 ^ 63.

(** The two worlds answer every catalog request alike (they may differ in
    everything else: status, metadata, datasets). *)
Definition same_catalogs (w w' : World) : Prop :=
  (forall url, requests_get w url = requests_get w' url)
  /\ (forall text, soup_dataset_urlpaths w text = soup_dataset_urlpaths w' text).

(** The method leaves every entry of the cache file in place, with its
    table, whether it returns or raises. *)
Definition keeps_entries {A : Type} (m : M A) : Prop :=
  forall store : Store, store ⊆ (m store).2.

End Shape.

(* ===================================================================== *)
(** * Part II: properties                                                 *)
(* ===================================================================== *)

(** ** The constructor *)

(** The concrete objects used below are what the constructor builds. *)
Example init_default :
  __init__ "/site-packages/oxyfloat" 0 None true
    "http://argo.jcommops.org/FTPRoot/Argo/Status/argo_all.txt"
    "ftp://ftp.ifremer.fr/ifremer/argo/ar_index_global_meta.txt"
    "http://tds0.ifremer.fr/thredds/catalog/CORIOLIS-ARGO-GDAC-OBS"
    Fixture.default_variables
  = Ok Fixture.default_object.
Proof. reflexivity. Qed.

Example init_with_cache_file :
  __init__ "/site-packages/oxyfloat" 0
    (Some "oxyfloat_age_340_max_profiles_5.hdf") true
    "http://argo.jcommops.org/FTPRoot/Argo/Status/argo_all.txt"
    "ftp://ftp.ifremer.fr/ifremer/argo/ar_index_global_meta.txt"
    "http://tds0.ifremer.fr/thredds/catalog/CORIOLIS-ARGO-GDAC-OBS"
    Fixture.default_variables
  = Ok (Fixture.object_with_cache_file "oxyfloat_age_340_max_profiles_5.hdf").
Proof. reflexivity. Qed.

(** An empty cache file name is no cache file name. *)
Example init_empty_cache_file :
  __init__ "/site-packages/oxyfloat" 0 (Some "") true
    "http://argo.jcommops.org/FTPRoot/Argo/Status/argo_all.txt"
    "ftp://ftp.ifremer.fr/ifremer/argo/ar_index_global_meta.txt"
    "http://tds0.ifremer.fr/thredds/catalog/CORIOLIS-ARGO-GDAC-OBS"
    Fixture.default_variables
  = Ok Fixture.default_object.
Proof. reflexivity. Qed.

(** ** The key normalizer *)

Lemma not_word_matches (c : ascii) :
  Re.class_matches Re.not_word c = negb (Spec.allowed c).
Proof. destruct c as [[] [] [] [] [] [] [] []]; reflexivity. Qed.

Lemma url_to_naturalname_strip (self : OxyFloat) (url : string) :
  _url_to_naturalname self url = Spec.strip url.
Proof.
  unfold _url_to_naturalname.
  induction url as [|c rest IH]; simpl; [reflexivity|].
  rewrite not_word_matches, IH.
  destruct (Spec.allowed c); reflexivity.
Qed.

Lemma strip_app (a b : string) :
  Spec.strip (a +:+ b) = Spec.strip a +:+ Spec.strip b.
Proof.
  induction a as [|c a IH]; simpl; [reflexivity|].
  rewrite IH. destruct (Spec.allowed c); reflexivity.
Qed.

Lemma strip_disallowed_char (c : ascii) (post : string) :
  Spec.allowed c = false -> Spec.strip (String c post) = Spec.strip post.
Proof. intros H. simpl. rewrite H. reflexivity. Qed.

(** C7. For every locator [url], [_url_to_naturalname] returns [url]
    with every character outside the alphanumeric-and-underscore set
    removed.  Hence equal locators get equal keys, and two locators that
    differ only in a disallowed character (one has it and the other does
    not, or they have different disallowed characters at the same place)
    get the same key. *)
Theorem url_to_naturalname_strips (self : OxyFloat) (url url' pre post : string)
  (c d : ascii) (Hc : Spec.allowed c = false) (Hd : Spec.allowed d = false) :
  _url_to_naturalname self url = Spec.strip url
  /\ (url = url' -> _url_to_naturalname self url = _url_to_naturalname self url')
  /\ _url_to_naturalname self (pre +:+ String c post)
     = _url_to_naturalname self (pre +:+ post)
  /\ _url_to_naturalname self (pre +:+ String c post)
     = _url_to_naturalname self (pre +:+ String d post).
Proof.
  rewrite !url_to_naturalname_strip, !strip_app, !strip_disallowed_char by assumption.
  repeat split. intros ->. reflexivity.
Qed.

Lemma url_to_naturalname_strips_witness :
  Spec.allowed "/" = false /\ Spec.allowed ":" = false
  /\ _url_to_naturalname Fixture.default_object "http://h/a_1.nc" = "httpha_1nc"
  /\ _url_to_naturalname Fixture.default_object ("a" +:+ String "/" "b")
     = _url_to_naturalname Fixture.default_object ("a" +:+ String ":" "b").
Proof.
  split; [reflexivity|]. split; [reflexivity|].
  pose proof (url_to_naturalname_strips Fixture.default_object
                "http://h/a_1.nc" "http://h/a_1.nc" "a" "b" "/" ":"
                eq_refl eq_refl) as (H1 & _ & _ & H4).
  split; [rewrite H1; reflexivity | exact H4].
Defined.

(** ** The local store *)

(** C8. For every key the store accepts that is absent from the cache
    file, [_get_df] raises [KeyError] (the store is left as it was) and
    yields no table. *)
Theorem get_df_absent (self : OxyFloat) (name : string) (store : Store)
  (Hkey : Shape.accepted_key name = true)
  (Habsent : store !! name = None) :
  _get_df self name store = (Raise KeyError, store)
  /\ forall (df : DataFrame) (store' : Store),
       _get_df self name store <> (Ok df, store').
Proof.
  unfold _get_df. rewrite Habsent. split; [reflexivity | discriminate].
Qed.

Lemma get_df_absent_witness :
  Shape.accepted_key "status" = true
  /\ (∅ : Store) !! "status" = None
  /\ _get_df Fixture.default_object "status" ∅ = (Raise KeyError, ∅).
Proof.
  split; [reflexivity|]. split; [reflexivity|].
  apply (get_df_absent Fixture.default_object "status" ∅ eq_refl).
  reflexivity.
Defined.

(** C9. For every key the store accepts and every table, [_put_df]
    followed by [_get_df] on the same key returns the table that was put,
    whatever the file held under that key before, and a second put
    replaces the first. *)
Theorem put_get_roundtrip (self : OxyFloat) (df prior : DataFrame)
  (name : string) (store : Store)
  (Hkey : Shape.accepted_key name = true) :
  (_ ← _put_df self df name; _get_df self name) store
    = (Ok df, <[name := df]> store)
  /\ (_ ← _put_df self prior name; _ ← _put_df self df name; _get_df self name) store
    = (Ok df, <[name := df]> store).
Proof.
  unfold mbind, M_bind, _put_df, _get_df. cbn.
  rewrite !lookup_insert_eq, insert_insert_eq. split; reflexivity.
Qed.

Lemma put_get_roundtrip_witness :
  Shape.accepted_key "status" = true
  /\ (_ ← _put_df Fixture.default_object Fixture.status_table "status";
      _get_df Fixture.default_object "status") ∅
     = (Ok Fixture.status_table, <["status" := Fixture.status_table]> ∅)
  /\ (_ ← _put_df Fixture.default_object Pandas.empty "status";
      _ ← _put_df Fixture.default_object Fixture.status_table "status";
      _get_df Fixture.default_object "status") ∅
     = (Ok Fixture.status_table, <["status" := Fixture.status_table]> ∅).
Proof.
  split; [reflexivity|].
  exact (put_get_roundtrip Fixture.default_object Fixture.status_table
           Pandas.empty "status" ∅ eq_refl).
Defined.

(** A put leaves the entries under the other keys alone. *)
Lemma put_df_other_key (self : OxyFloat) (df : DataFrame) (name other : string)
  (store : Store) :
  name <> other ->
  (_ ← _put_df self df name; _get_df self other) store
    = ((_get_df self other store).1, <[name := df]> store).
Proof.
  intros Hne. unfold mbind, M_bind, _put_df, _get_df. cbn.
  rewrite lookup_insert_ne by assumption.
  destruct (store !! other); reflexivity.
Qed.

(** ** Eligible floats *)

Lemma cell_eq_int (z n : Z) : Pandas.cell_eq (Spec.int_cell z) n = (z =? n).
Proof.
  unfold Pandas.cell_eq, Spec.int_cell.
  destruct (Z.eqb_spec z n) as [->|Hne].
  - apply Qeq_bool_iff. reflexivity.
  - apply not_true_is_false. intros H%Qeq_bool_iff.
    unfold Qeq in H. simpl in H. lia.
Qed.

Lemma cell_ge_int (z n : Z) : Pandas.cell_ge (Spec.int_cell z) n = (n <=? z).
Proof.
  unfold Pandas.cell_ge, Spec.int_cell.
  destruct (Z.leb_spec n z) as [Hle|Hgt].
  - apply Qle_bool_iff. unfold Qle. simpl. lia.
  - apply not_true_is_false. intros H%Qle_bool_iff.
    unfold Qle in H. simpl in H. lia.
Qed.

Lemma zip_with_andb_map {A : Type} (f g : A -> bool) (l : list A) :
  zip_with andb (map f l) (map g l) = map (fun x => f x && g x) l.
Proof. induction l as [|x l IH]; simpl; [reflexivity | rewrite IH; reflexivity]. Qed.

Lemma select_map_filter {A B : Type} (f : A -> bool) (g : A -> B) (l : list A) :
  Pandas.select (map f l) (map g l) = map g (filter (fun x => f x = true) l).
Proof.
  induction l as [|x l IH]; simpl; [reflexivity|].
  rewrite filter_cons. destruct (f x) eqn:Hfx.
  - rewrite decide_True by reflexivity. simpl. rewrite IH. reflexivity.
  - rewrite decide_False by discriminate. exact IH.
Qed.

Lemma lookup_column_select_rows (mask : list bool) (df : DataFrame) (name : string) :
  Pandas.lookup_column name (Pandas.df_columns (Pandas.select_rows mask df))
  = Pandas.select mask <$> Pandas.lookup_column name (Pandas.df_columns df).
Proof.
  unfold Pandas.select_rows. simpl.
  induction (Pandas.df_columns df) as [|[n vals] cols IH]; simpl; [reflexivity|].
  destruct (String.eqb n name); [reflexivity | exact IH].
Qed.

(** The query keeps exactly the rows of the eligible entries. *)
Lemma query_oxy_eligible (df : DataFrame) (rows : list Spec.StatusRow) (n : Z) :
  Spec.holds_status df rows ->
  Pandas.query_oxy df n
  = Ok (Pandas.select_rows (map (Spec.eligible n) rows) df).
Proof.
  intros (_ & Hoxy & Hgrey & Hage).
  unfold Pandas.query_oxy, Pandas.query_column.
  rewrite Hoxy, Hgrey, Hage. cbn.
  rewrite !map_map, !zip_with_andb_map.
  do 2 f_equal. apply map_ext. intros r.
  unfold Pandas.cell_ne, Spec.eligible.
  rewrite !cell_eq_int, cell_ge_int. reflexivity.
Qed.

(** C2. For every status table in the cache (or, on a cache miss,
    delivered by the status reader and then cached) and every [age_gte]
    that the query engine takes as a literal,
    [get_oxy_floats_from_status] returns the float ids of exactly the
    rows whose oxygen flag is 1, greylist flag is 0 and age is nonzero and
    at least [age_gte], in row order. *)
Theorem get_oxy_floats_from_status_eligible (self : OxyFloat) (world : World)
  (age_gte : Z) (df : DataFrame) (rows : list Spec.StatusRow) (store : Store)
  (Hliteral : Shape.query_literal age_gte)
  (Hrows : Spec.holds_status df rows)
  (Hsource : store !! _STATUS = Some df
             \/ (store !! _STATUS = None /\ _status_to_df self world = Ok df)) :
  get_oxy_floats_from_status self world age_gte store
  = (Ok (Spec.eligible_floats age_gte rows), <[_STATUS := df]> store).
Proof.
  assert (Hread :
    try_except (_get_df self _STATUS) KeyError
      (fetched ← lift (_status_to_df self world);
       _ ← _put_df self fetched _STATUS;
       _get_df self _STATUS) store
    = (Ok df, <[_STATUS := df]> store)).
  { unfold try_except, _get_df, _put_df, mbind, M_bind, lift.
    destruct Hsource as [Hhit | [Hmiss Hfetch]].
    - rewrite Hhit, insert_id by assumption. reflexivity.
    - rewrite Hmiss, Hfetch. simpl.
      rewrite lookup_insert_eq. reflexivity. }
  unfold get_oxy_floats_from_status.
  unfold mbind at 1, M_bind at 1. rewrite Hread.
  unfold mbind, M_bind, lift. rewrite (query_oxy_eligible df rows age_gte Hrows).
  unfold Pandas.getitem. rewrite lookup_column_select_rows.
  destruct Hrows as (Hwmo & _). rewrite Hwmo. cbn.
  unfold Pandas.tolist, Spec.eligible_floats. cbn.
  rewrite select_map_filter. reflexivity.
Qed.

Lemma get_oxy_floats_from_status_eligible_witness :
  Shape.query_literal 340
  /\ Spec.holds_status Fixture.status_table Fixture.status_rows
  /\ get_oxy_floats_from_status Fixture.default_object
       (Fixture.world_with Fixture.profile) 340
       {[ _STATUS := Fixture.status_table ]}
     = (Ok [Spec.int_cell 1],
        <[_STATUS := Fixture.status_table]> {[ _STATUS := Fixture.status_table ]})
  /\ get_oxy_floats_from_status Fixture.default_object
       (Fixture.world_with Fixture.profile) 340 ∅
     = (Ok [Spec.int_cell 1], <[_STATUS := Fixture.status_table]> ∅).
Proof.
  assert (Hliteral : Shape.query_literal 340)
    by (unfold Shape.query_literal; lia).
  assert (Hrows : Spec.holds_status Fixture.status_table Fixture.status_rows)
    by (repeat split; reflexivity).
  split; [exact Hliteral|]. split; [exact Hrows|]. split.
  - apply (get_oxy_floats_from_status_eligible Fixture.default_object
             (Fixture.world_with Fixture.profile) 340
             Fixture.status_table Fixture.status_rows _ Hliteral Hrows).
    left. reflexivity.
  - apply (get_oxy_floats_from_status_eligible Fixture.default_object
             (Fixture.world_with Fixture.profile) 340
             Fixture.status_table Fixture.status_rows _ Hliteral Hrows).
    right. split; reflexivity.
Defined.

(** The keys the program puts tables under are keys the store accepts:
    the two reserved names, and the key of every locator that starts with
    a letter (as [http://...] does). *)
Lemma program_keys_accepted (self : OxyFloat) (c : ascii) (rest : string) :
  Shape.accepted_key _STATUS = true
  /\ Shape.accepted_key _GLOBAL_META = true
  /\ (Shape.is_letter c = true ->
      Shape.accepted_key (_url_to_naturalname self (String c rest)) = true).
Proof.
  split; [reflexivity|]. split; [reflexivity|].
  intros Hletter. rewrite url_to_naturalname_strip. simpl.
  assert (Hallowed : Spec.allowed c = true).
  { revert Hletter. destruct c as [[] [] [] [] [] [] [] []];
      vm_compute; congruence. }
  rewrite Hallowed. simpl. rewrite Hletter. simpl.
  clear. induction rest as [|d rest IH]; simpl; [reflexivity|].
  destruct (Spec.allowed d) eqn:Hd; [simpl; rewrite Hd|]; exact IH.
Qed.

(** ** The profile transformer and the save step *)

Lemma check_variables_missing (ds : Dataset) (vs : list string) (v : string) :
  v ∈ vs -> ds !! v = None ->
  check_variables ds vs = Raise RequiredVariableNotPresent.
Proof.
  intros Hin Hmissing.
  induction vs as [|x vs IH]; [inversion Hin|].
  simpl. unfold ds_has.
  apply elem_of_cons in Hin as [<- | Hin].
  - rewrite Hmissing. reflexivity.
  - destruct (ds !! x); [apply IH; assumption | reflexivity].
Qed.

(** The save step once the outcome of the [try] body is known. *)
Lemma save_profile_of_body (self : OxyFloat) (world : World) (url : string)
  (count : Z) (opendap_urls : list string) (wmo key : string) (store : Store) :
  _save_profile self world url count opendap_urls wmo key store
  = match transform_and_validate self world wmo url with
    | Ok df => (Ok df, <[key := df]> store)
    | Raise RequiredVariableNotPresent =>
        (Ok Pandas.empty, <[key := Pandas.empty]> store)
    | Raise e => (Raise e, store)
    end.
Proof.
  unfold _save_profile, try_except, lift, mbind, M_bind, _put_df, mret, M_ret.
  destruct (transform_and_validate self world wmo url) as [df|[]]; reflexivity.
Qed.

(** C3. For every profile dataset that lacks one of the configured
    variables, [_profile_to_dataframe] raises [RequiredVariableNotPresent],
    and [_save_profile] catches it: it stores the empty table under the
    profile's key and returns it, raising nothing. *)
Theorem missing_variable_saved_empty (self : OxyFloat) (world : World)
  (wmo url : string) (count : Z) (opendap_urls : list string) (key : string)
  (store : Store) (ds : Dataset) (v : string)
  (Hopen : open_dataset world url = Ok ds)
  (Hrequired : v ∈ variables self)
  (Hmissing : ds !! v = None) :
  _profile_to_dataframe self world wmo url = Raise RequiredVariableNotPresent
  /\ _save_profile self world url count opendap_urls wmo key store
     = (Ok Pandas.empty, <[key := Pandas.empty]> store).
Proof.
  assert (Htransform :
    _profile_to_dataframe self world wmo url = Raise RequiredVariableNotPresent).
  { unfold _profile_to_dataframe. rewrite Hopen. cbn.
    rewrite (check_variables_missing ds _ v); [reflexivity | | assumption].
    apply elem_of_elements. assumption. }
  split; [exact Htransform|].
  rewrite save_profile_of_body. unfold transform_and_validate.
  rewrite Htransform. reflexivity.
Qed.

Lemma missing_variable_saved_empty_witness :
  open_dataset (Fixture.world_with Fixture.profile_without_juld)
    (Fixture.locator "1") = Ok Fixture.profile_without_juld
  /\ "JULD" ∈ variables Fixture.default_object
  /\ Fixture.profile_without_juld !! "JULD" = None
  /\ _profile_to_dataframe Fixture.default_object
       (Fixture.world_with Fixture.profile_without_juld)
       "1900722" (Fixture.locator "1")
     = Raise RequiredVariableNotPresent
  /\ _save_profile Fixture.default_object
       (Fixture.world_with Fixture.profile_without_juld)
       (Fixture.locator "1") 0 [Fixture.locator "1"] "1900722"
       (Fixture.key_of "1") ∅
     = (Ok Pandas.empty, <[Fixture.key_of "1" := Pandas.empty]> ∅).
Proof.
  assert (Hrequired : "JULD" ∈ variables Fixture.default_object)
    by (vm_compute; reflexivity).
  split; [reflexivity|]. split; [exact Hrequired|]. split; [reflexivity|].
  apply (missing_variable_saved_empty Fixture.default_object
           (Fixture.world_with Fixture.profile_without_juld)
           "1900722" (Fixture.locator "1") 0 [Fixture.locator "1"]
           (Fixture.key_of "1") ∅ Fixture.profile_without_juld "JULD"
           eq_refl Hrequired eq_refl).
Defined.

Lemma dropna_empty (s : Pandas.Series) :
  Pandas.series_empty (Pandas.dropna s) = forallb Pandas.is_nan (Pandas.s_values s).
Proof.
  unfold Pandas.series_empty, Pandas.dropna. simpl.
  induction (Pandas.s_values s) as [|c cs IH]; [reflexivity|].
  rewrite filter_cons. simpl.
  destruct (Pandas.is_nan c).
  - rewrite decide_False by discriminate. exact IH.
  - rewrite decide_True by reflexivity. reflexivity.
Qed.

(** The save step with oxygen required, by what the transformed table
    has in its oxygen column. *)
Lemma save_profile_validated (self : OxyFloat) (world : World) (url : string)
  (count : Z) (opendap_urls : list string) (wmo key : string) (store : Store)
  (df : DataFrame) :
  _oxygen_required self = true ->
  _profile_to_dataframe self world wmo url = Ok df ->
  _save_profile self world url count opendap_urls wmo key store
  = match Pandas.lookup_column "DOXY_ADJUSTED" (Pandas.df_columns df) with
    | Some col =>
        if forallb Pandas.is_nan col
        then (Ok Pandas.empty, <[key := Pandas.empty]> store)
        else (Ok df, <[key := df]> store)
    | None => (Raise KeyError, store)
    end.
Proof.
  intros Hrequired Htransform.
  rewrite save_profile_of_body. unfold transform_and_validate.
  rewrite Htransform, Hrequired. cbn.
  unfold _validate_oxygen, Pandas.getitem.
  destruct (Pandas.lookup_column "DOXY_ADJUSTED" (Pandas.df_columns df))
    as [col|]; [|reflexivity].
  cbn. rewrite dropna_empty. simpl.
  destruct (forallb Pandas.is_nan col); reflexivity.
Qed.

(** C4. With oxygen required, the save step on a transformed table
    [df]: when the oxygen column is there and holds no value, the empty
    table is stored and returned, whatever the other columns hold; when
    it holds a value, [df] is stored and returned unchanged; when [df]
    has no oxygen column at all, [KeyError] leaves the save step and
    nothing is stored. *)
Theorem save_profile_oxygen (self : OxyFloat) (world : World) (url : string)
  (count : Z) (opendap_urls : list string) (wmo key : string) (store : Store)
  (df : DataFrame)
  (Hrequired : _oxygen_required self = true)
  (Htransform : _profile_to_dataframe self world wmo url = Ok df) :
  (forall col,
     Pandas.lookup_column "DOXY_ADJUSTED" (Pandas.df_columns df) = Some col ->
     forallb Pandas.is_nan col = true ->
     _save_profile self world url count opendap_urls wmo key store
     = (Ok Pandas.empty, <[key := Pandas.empty]> store))
  /\ (forall col,
     Pandas.lookup_column "DOXY_ADJUSTED" (Pandas.df_columns df) = Some col ->
     forallb Pandas.is_nan col = false ->
     _save_profile self world url count opendap_urls wmo key store
     = (Ok df, <[key := df]> store))
  /\ (Pandas.lookup_column "DOXY_ADJUSTED" (Pandas.df_columns df) = None ->
     _save_profile self world url count opendap_urls wmo key store
     = (Raise KeyError, store)).
Proof.
  rewrite (save_profile_validated self world url count opendap_urls wmo key
             store df Hrequired Htransform).
  repeat split.
  - intros col -> ->. reflexivity.
  - intros col -> ->. reflexivity.
  - intros ->. reflexivity.
Qed.

Lemma transform_profile (url : string) :
  _profile_to_dataframe Fixture.default_object (Fixture.world_with Fixture.profile)
    "1900722" url = Ok Fixture.table.
Proof. vm_compute. reflexivity. Qed.

Lemma transform_profile_oxygen_unreadable (url : string) :
  _profile_to_dataframe Fixture.default_object
    (Fixture.world_with Fixture.profile_oxygen_unreadable) "1900722" url
  = Ok Fixture.table_without_oxygen.
Proof. vm_compute. reflexivity. Qed.

Lemma transform_profile_oxygen_null (url : string) :
  _profile_to_dataframe Fixture.default_object
    (Fixture.world_with Fixture.profile_oxygen_null) "1900722" url
  = Ok Fixture.table_oxygen_null.
Proof. vm_compute. reflexivity. Qed.

Lemma save_profile_oxygen_witness :
  _oxygen_required Fixture.default_object = true
  /\ _profile_to_dataframe Fixture.default_object
       (Fixture.world_with Fixture.profile_oxygen_unreadable)
       "1900722" (Fixture.locator "1")
     = Ok Fixture.table_without_oxygen
  /\ Pandas.lookup_column "DOXY_ADJUSTED"
       (Pandas.df_columns Fixture.table_without_oxygen) = None
  /\ _save_profile Fixture.default_object
       (Fixture.world_with Fixture.profile_oxygen_unreadable)
       (Fixture.locator "1") 0 [Fixture.locator "1"] "1900722"
       (Fixture.key_of "1") ∅
     = (Raise KeyError, ∅).
Proof.
  split; [reflexivity|].
  split; [apply transform_profile_oxygen_unreadable|].
  split; [reflexivity|].
  apply (save_profile_oxygen Fixture.default_object
           (Fixture.world_with Fixture.profile_oxygen_unreadable)
           (Fixture.locator "1") 0 [Fixture.locator "1"] "1900722"
           (Fixture.key_of "1") ∅ Fixture.table_without_oxygen
           eq_refl (transform_profile_oxygen_unreadable (Fixture.locator "1"))).
  reflexivity.
Defined.

(** The two cases of oxygen validation that the specification describes
    rightly, on concrete profiles. *)
Example oxygen_null_saved_empty :
  _save_profile Fixture.default_object
    (Fixture.world_with Fixture.profile_oxygen_null)
    (Fixture.locator "1") 0 [Fixture.locator "1"] "1900722" (Fixture.key_of "1") ∅
  = (Ok Pandas.empty, <[Fixture.key_of "1" := Pandas.empty]> ∅).
Proof.
  rewrite (save_profile_validated Fixture.default_object
             (Fixture.world_with Fixture.profile_oxygen_null)
             (Fixture.locator "1") 0 [Fixture.locator "1"] "1900722"
             (Fixture.key_of "1") ∅ Fixture.table_oxygen_null
             eq_refl (transform_profile_oxygen_null (Fixture.locator "1"))).
  reflexivity.
Qed.

Example oxygen_present_saved_unchanged :
  _save_profile Fixture.default_object (Fixture.world_with Fixture.profile)
    (Fixture.locator "1") 0 [Fixture.locator "1"] "1900722" (Fixture.key_of "1") ∅
  = (Ok Fixture.table, <[Fixture.key_of "1" := Fixture.table]> ∅).
Proof.
  rewrite (save_profile_validated Fixture.default_object
             (Fixture.world_with Fixture.profile)
             (Fixture.locator "1") 0 [Fixture.locator "1"] "1900722"
             (Fixture.key_of "1") ∅ Fixture.table
             eq_refl (transform_profile (Fixture.locator "1"))).
  reflexivity.
Qed.

(** C10. With oxygen required there is an input on which the batch
    neither stores an empty entry nor goes on: a dataset that lists
    [DOXY_ADJUSTED] and fails with a server error when the values are read.
    The transform leaves the column out, oxygen validation raises
    [KeyError], [_save_profile] lets it through without storing anything,
    and [get_float_dataframe] ends with that [KeyError]; the cache file has
    no entry for the profile. *)
Theorem oxygen_unreadable_aborts_batch :
  exists (self : OxyFloat) (world : World) (wmo_list : list string)
         (url : string) (ds : Dataset) (df : DataFrame) (store' : Store),
    _oxygen_required self = true
    /\ get_profile_opendap_urls self world Fixture.catalog_url
       = Ok (map Fixture.locator ["1"; "2"; "3"; "4"; "5"])
    /\ url = Fixture.locator "1"
    /\ open_dataset world url = Ok ds
    /\ ds_has ds "DOXY_ADJUSTED" = true
    /\ ds_values0 ds "DOXY_ADJUSTED" = Raise ServerError
    /\ _profile_to_dataframe self world "1900722" url = Ok df
    /\ Pandas.lookup_column "DOXY_ADJUSTED" (Pandas.df_columns df) = None
    /\ _validate_oxygen self df url = Raise KeyError
    /\ (forall count opendap_urls store,
          _save_profile self world url count opendap_urls "1900722"
            (_url_to_naturalname self url) store
          = (Raise KeyError, store))
    /\ get_float_dataframe self world wmo_list None ∅ = (Raise KeyError, store')
    /\ store' !! _url_to_naturalname self url = None.
Proof.
  exists Fixture.default_object,
    (Fixture.world_with Fixture.profile_oxygen_unreadable),
    ["1900722"], (Fixture.locator "1"), Fixture.profile_oxygen_unreadable,
    Fixture.table_without_oxygen, (<[_GLOBAL_META := Fixture.meta_table]> ∅).
  split; [reflexivity|]. split; [vm_compute; reflexivity|].
  split; [reflexivity|]. split; [reflexivity|].
  split; [vm_compute; reflexivity|]. split; [vm_compute; reflexivity|].
  split; [apply transform_profile_oxygen_unreadable|].
  split; [reflexivity|]. split; [reflexivity|].
  split.
  - intros count opendap_urls store.
    rewrite (save_profile_validated Fixture.default_object
               (Fixture.world_with Fixture.profile_oxygen_unreadable)
               (Fixture.locator "1") count opendap_urls "1900722"
               (_url_to_naturalname Fixture.default_object (Fixture.locator "1"))
               store Fixture.table_without_oxygen eq_refl
               (transform_profile_oxygen_unreadable (Fixture.locator "1"))).
    reflexivity.
  - split; vm_compute; reflexivity.
Qed.

(** ** The catalog reader *)

(** C6. For every catalog URL whose HTTP read ends in a connection
    error, [get_profile_opendap_urls] returns the empty list and raises
    nothing; the batch goes on with the next float as if this one had no
    profiles. *)
Theorem catalog_connection_failure (self : OxyFloat) (world : World)
  (catalog_url : string)
  (Hfail : requests_get world catalog_url = Raise ConnectionError) :
  get_profile_opendap_urls self world catalog_url = Ok []
  /\ forall (max_profiles : Z) (wmo : string) (rest : list (string * string))
            (float_df : DataFrame) (store : Store),
       floats_loop self world max_profiles ((wmo, catalog_url) :: rest)
         float_df store
       = floats_loop self world max_profiles rest float_df store.
Proof.
  assert (Hempty : get_profile_opendap_urls self world catalog_url = Ok []).
  { unfold get_profile_opendap_urls. rewrite Hfail. reflexivity. }
  split; [exact Hempty|].
  intros max_profiles wmo rest float_df store.
  simpl. unfold lift, mbind at 1, M_bind at 1. rewrite Hempty. reflexivity.
Qed.

Lemma catalog_connection_failure_witness :
  requests_get (Fixture.world_with Fixture.profile) "http://unreachable/catalog.xml"
    = Raise ConnectionError
  /\ get_profile_opendap_urls Fixture.default_object
       (Fixture.world_with Fixture.profile) "http://unreachable/catalog.xml"
     = Ok [].
Proof.
  split; [reflexivity|].
  apply (catalog_connection_failure Fixture.default_object
           (Fixture.world_with Fixture.profile)
           "http://unreachable/catalog.xml" eq_refl).
Defined.

(** ** The profile cap *)

Lemma get_cache_file_parms_cases (self : OxyFloat) (max_profiles : option Z) :
  _get_cache_file_parms self max_profiles
  = match cache_file_max self with
    | None => max_profiles
    | Some cache_file_max =>
        match max_profiles with
        | None => Some cache_file_max
        | Some n =>
            if (n =? 0) || (n >? cache_file_max) then Some cache_file_max
            else Some n
        end
    end.
Proof.
  unfold _get_cache_file_parms, cache_file_max.
  destruct (cache_file_requested self) as [name|]; [|reflexivity].
  destruct (Re.search_lit_group "max_profiles_" Re.digit name); [|reflexivity].
  destruct max_profiles; reflexivity.
Qed.

Example cache_file_max_of_format :
  cache_file_max (Fixture.object_with_cache_file "oxyfloat_age_340_max_profiles_5.hdf")
    = Some 5
  /\ cache_file_max (Fixture.object_with_cache_file "/data/max_profiles_/x_max_profiles_0120b7")
    = Some 120
  /\ cache_file_max (Fixture.object_with_cache_file "oxyfloat_cache.hdf") = None
  /\ cache_file_max Fixture.default_object = None.
Proof. repeat split. Qed.

(** C5 as the specification states it fails when the caller passes the
    cap 0 and the cache file is named for 5 profiles: the code loops with
    the cap 5, and the minimum of the two is 0. *)
Lemma effective_cap_min_counterexample :
  cache_file_max
    (Fixture.object_with_cache_file "oxyfloat_age_340_max_profiles_5.hdf") = Some 5
  /\ effective_max_profiles
       (Fixture.object_with_cache_file "oxyfloat_age_340_max_profiles_5.hdf")
       (Some 0) = 5
  /\ Spec.cap_value (Spec.effective_cap (Some 0) (Some 5)) = 0
  /\ effective_max_profiles
       (Fixture.object_with_cache_file "oxyfloat_age_340_max_profiles_5.hdf")
       (Some 0)
     <> Spec.cap_value
          (Spec.effective_cap (Some 0)
             (cache_file_max
                (Fixture.object_with_cache_file "oxyfloat_age_340_max_profiles_5.hdf"))).
Proof. repeat split. vm_compute. discriminate. Qed.

(** C5, amended. For every caller-supplied cap other than 0 and every
    cache file whose name encodes no cap or a cap other than 0, the cap
    [get_float_dataframe] loops with is the minimum of the two caps when
    both are given, the one that is given when only one is, and
    [_MAX_PROFILES] when neither is.  A caller-supplied cap of 0 counts as
    not given. *)
Theorem effective_cap_min (self : OxyFloat) (max_profiles : option Z)
  (Hcaller : max_profiles <> Some 0)
  (Hfile : cache_file_max self <> Some 0) :
  effective_max_profiles self max_profiles
  = Spec.cap_value (Spec.effective_cap max_profiles (cache_file_max self))
  /\ effective_max_profiles self (Some 0) = effective_max_profiles self None.
Proof.
  unfold effective_max_profiles. rewrite !get_cache_file_parms_cases.
  destruct (cache_file_max self) as [m|], max_profiles as [n|];
    unfold or_MAX_PROFILES, py_not, Spec.effective_cap, Spec.cap_value.
  - assert (n <> 0) by congruence. assert (m <> 0) by congruence.
    destruct (Z.eqb_spec n 0); [contradiction|]. simpl.
    split; [|simpl; destruct (Z.eqb_spec m 0); reflexivity].
    destruct (Z.gtb_spec n m).
    + destruct (Z.eqb_spec m 0); [contradiction|]. lia.
    + destruct (Z.eqb_spec n 0); [contradiction|]. lia.
  - assert (m <> 0) by congruence. simpl.
    destruct (Z.eqb_spec m 0); [contradiction|]. split; reflexivity.
  - assert (n <> 0) by congruence.
    destruct (Z.eqb_spec n 0); [contradiction|]. split; reflexivity.
  - split; reflexivity.
Qed.

Lemma effective_cap_min_witness :
  Some 7 <> Some 0
  /\ cache_file_max
       (Fixture.object_with_cache_file "oxyfloat_age_340_max_profiles_5.hdf")
     <> Some 0
  /\ effective_max_profiles
       (Fixture.object_with_cache_file "oxyfloat_age_340_max_profiles_5.hdf")
       (Some 7) = 5.
Proof.
  assert (H7 : Some 7 <> Some 0) by discriminate.
  assert (H5 : cache_file_max
                 (Fixture.object_with_cache_file "oxyfloat_age_340_max_profiles_5.hdf")
               <> Some 0) by discriminate.
  split; [exact H7|]. split; [exact H5|].
  apply (effective_cap_min
           (Fixture.object_with_cache_file "oxyfloat_age_340_max_profiles_5.hdf")
           (Some 7) H7 H5).
Defined.

(** ** The orchestrator's inner loop *)

Section InnerLoop.

Variables (self : OxyFloat) (world : World).
Variables (wmo : string) (opendap_urls : list string).

(** From index [i] on, the loop with the cap processes the locators whose
    index is at most the cap, and no other. *)
Lemma profiles_loop_from (max_profiles : Z) (rest : list string) :
  forall (i : Z) (float_df : DataFrame) (store : Store),
    profiles_loop self world wmo opendap_urls max_profiles i rest float_df store
    = Spec.process_each self world wmo opendap_urls i
        (take (Z.to_nat (max_profiles + 1 - i)) rest) float_df store.
Proof.
  induction rest as [|url rest' IH]; intros i float_df store.
  - rewrite take_nil. reflexivity.
  - simpl. destruct (Z.gtb_spec i max_profiles) as [Hover | Hwithin].
    + replace (Z.to_nat (max_profiles + 1 - i)) with 0%nat by lia. reflexivity.
    + replace (Z.to_nat (max_profiles + 1 - i))
        with (S (Z.to_nat (max_profiles + 1 - (i + 1)))) by lia.
      simpl. unfold mbind, M_bind.
      destruct (process_profile self world wmo opendap_urls i url float_df store)
        as [[float_df'|e] store']; [apply IH | reflexivity].
Qed.

(** A cap that the catalog does not reach is no cap.  [_MAX_PROFILES] is
    such a cap for every catalog of up to [_MAX_PROFILES + 1] locators. *)
Lemma profiles_loop_cap_not_reached (max_profiles : Z) (float_df : DataFrame)
  (store : Store) :
  Z.of_nat (length opendap_urls) <= max_profiles + 1 ->
  profiles_loop self world wmo opendap_urls max_profiles 0 opendap_urls
    float_df store
  = Spec.process_each self world wmo opendap_urls 0 opendap_urls float_df store.
Proof.
  intros Hshort. rewrite profiles_loop_from, take_ge; [reflexivity | lia].
Qed.

End InnerLoop.

(** C1. The inner loop of [get_float_dataframe] processes the locators
    at the zero-based indices up to and including the cap: the first
    [max_profiles + 1] of them.  With five locators and the cap 2 those are
    the three locators at indices 0, 1 and 2.  On a catalog of five
    profiles, with [max_profiles=2] and an empty cache file, the call
    stores three profiles (the first, second and third) and returns their
    rows. *)
Theorem profiles_loop_inclusive_cap (self : OxyFloat) (world : World)
  (wmo : string) (opendap_urls : list string) (max_profiles : Z)
  (float_df : DataFrame) (store : Store) (u0 u1 u2 u3 u4 : string) :
  profiles_loop self world wmo opendap_urls max_profiles 0 opendap_urls
    float_df store
  = Spec.process_each self world wmo opendap_urls 0
      (take (Z.to_nat (max_profiles + 1)) opendap_urls) float_df store
  /\ profiles_loop self world wmo [u0; u1; u2; u3; u4] 2 0 [u0; u1; u2; u3; u4]
       float_df store
     = Spec.process_each self world wmo [u0; u1; u2; u3; u4] 0 [u0; u1; u2]
         float_df store
  /\ get_profile_opendap_urls Fixture.default_object
       (Fixture.world_with Fixture.profile) Fixture.catalog_url
     = Ok (map Fixture.locator ["1"; "2"; "3"; "4"; "5"])
  /\ (get_float_dataframe Fixture.default_object
        (Fixture.world_with Fixture.profile) ["1900722"] (Some 2) ∅).1
     = Ok (Pandas.append (Pandas.append Fixture.table Fixture.table) Fixture.table)
  /\ map (fun n =>
            bool_decide (is_Some
              ((get_float_dataframe Fixture.default_object
                  (Fixture.world_with Fixture.profile) ["1900722"] (Some 2) ∅).2
               !! Fixture.key_of n)))
       ["1"; "2"; "3"; "4"; "5"]
     = [true; true; true; false; false].
Proof.
  split; [|split].
  - rewrite profiles_loop_from. do 3 f_equal. lia.
  - rewrite profiles_loop_from. reflexivity.
  - repeat split; vm_compute; reflexivity.
Qed.

(* ===================================================================== *)
(** * Part III: further properties of the code                            *)
(* ===================================================================== *)

(** ** Keys are natural names *)

Lemma strip_natural (s : string) : Shape.natural (Spec.strip s) = true.
Proof.
  induction s as [|c s IH]; simpl; [reflexivity|].
  destruct (Spec.allowed c) eqn:Hc; [simpl; rewrite Hc|]; exact IH.
Qed.

Lemma strip_of_natural (s : string) :
  Shape.natural s = true -> Spec.strip s = s.
Proof.
  induction s as [|c s IH]; simpl; [reflexivity|].
  intros [Hc Hs]%andb_true_iff. rewrite Hc, IH by assumption. reflexivity.
Qed.

Lemma strip_length (s : string) :
  (String.length (Spec.strip s) <= String.length s)%nat.
Proof.
  induction s as [|c s IH]; simpl; [lia|].
  destruct (Spec.allowed c); simpl; lia.
Qed.

(** X1. A key has only letters, digits and underscores, is never longer
    than its locator, and is its own key; a locator that is already such a
    name is kept as it is. *)
Theorem url_to_naturalname_natural (self : OxyFloat) (url : string) :
  Shape.natural (_url_to_naturalname self url) = true
  /\ (String.length (_url_to_naturalname self url) <= String.length url)%nat
  /\ _url_to_naturalname self (_url_to_naturalname self url)
     = _url_to_naturalname self url
  /\ (Shape.natural url = true -> _url_to_naturalname self url = url).
Proof.
  rewrite !url_to_naturalname_strip.
  split; [apply strip_natural|]. split; [apply strip_length|].
  split; [apply strip_of_natural, strip_natural | apply strip_of_natural].
Qed.

(** ** What the methods do to the cache file *)

Lemma keeps_ret {A : Type} (a : A) : Shape.keeps_entries (mret a : M A).
Proof. intros store. reflexivity. Qed.

Lemma keeps_lift {A : Type} (r : result A) : Shape.keeps_entries (lift r).
Proof. intros store. reflexivity. Qed.

Lemma keeps_bind {A B : Type} (m : M A) (f : A -> M B) :
  Shape.keeps_entries m -> (forall a, Shape.keeps_entries (f a)) ->
  Shape.keeps_entries (m ≫= f).
Proof.
  intros Hm Hf store. unfold mbind, M_bind.
  specialize (Hm store). destruct (m store) as [[a|e] store1]; simpl in *.
  - etransitivity; [exact Hm | apply Hf].
  - exact Hm.
Qed.

(** A read through the cache, [try: _get_df(name) except KeyError:
    handler], keeps the entries when the handler does on a file that has
    no [name]. *)
Lemma keeps_read_through (self : OxyFloat) (name : string)
  (handler : M DataFrame) :
  (forall store : Store, store !! name = None -> store ⊆ (handler store).2) ->
  Shape.keeps_entries (try_except (_get_df self name) KeyError handler).
Proof.
  intros Hhandler store. unfold try_except, _get_df.
  destruct (store !! name) eqn:Hname; simpl; [reflexivity|].
  apply Hhandler. exact Hname.
Qed.

Section Profiles.

Variables (self : OxyFloat) (world : World).
Variables (wmo : string) (opendap_urls : list string).

(** A locator whose key is in the cache file is served from it. *)
Lemma process_profile_hit (i : Z) (url : string) (float_df df : DataFrame)
  (store : Store) :
  store !! _url_to_naturalname self url = Some df ->
  process_profile self world wmo opendap_urls i url float_df store
  = (Ok (Pandas.append float_df df), store).
Proof.
  intros Hhit.
  unfold process_profile, mbind, M_bind, try_except, _get_df.
  rewrite Hhit. reflexivity.
Qed.

(** A locator whose key is not in the cache file is transformed and saved. *)
Lemma process_profile_miss (i : Z) (url : string) (float_df : DataFrame)
  (store : Store) :
  store !! _url_to_naturalname self url = None ->
  process_profile self world wmo opendap_urls i url float_df store
  = match transform_and_validate self world wmo url with
    | Ok df =>
        (Ok (Pandas.append float_df df),
         <[_url_to_naturalname self url := df]> store)
    | Raise RequiredVariableNotPresent =>
        (Ok (Pandas.append float_df Pandas.empty),
         <[_url_to_naturalname self url := Pandas.empty]> store)
    | Raise e => (Raise e, store)
    end.
Proof.
  intros Hmiss.
  unfold process_profile, mbind, M_bind, try_except, _get_df.
  rewrite Hmiss. simpl. rewrite save_profile_of_body.
  destruct (transform_and_validate self world wmo url) as [df|[]]; reflexivity.
Qed.

(** However a locator is processed, the entries of the file stay; when it
    succeeds, the table it appended is the one now under the key. *)
Lemma process_profile_outcome (i : Z) (url : string) (float_df : DataFrame)
  (store : Store) :
  store ⊆ (process_profile self world wmo opendap_urls i url float_df store).2
  /\ forall out store',
       process_profile self world wmo opendap_urls i url float_df store
         = (Ok out, store') ->
       exists df, store' !! _url_to_naturalname self url = Some df
                  /\ out = Pandas.append float_df df.
Proof.
  destruct (store !! _url_to_naturalname self url) as [df|] eqn:Hkey.
  - rewrite (process_profile_hit i url float_df df store Hkey). split; [reflexivity|].
    intros out store' [= <- <-]. exists df. split; [assumption | reflexivity].
  - rewrite (process_profile_miss i url float_df store Hkey).
    destruct (transform_and_validate self world wmo url) as [df|e].
    + split; [apply insert_subseteq; assumption|].
      intros out store' [= <- <-]. exists df.
      rewrite lookup_insert_eq. split; reflexivity.
    + destruct e; simpl; (split; [first [reflexivity | apply insert_subseteq; assumption]|]);
        intros out store'; try discriminate.
      intros [= <- <-]. exists Pandas.empty.
      rewrite lookup_insert_eq. split; reflexivity.
Qed.

Lemma profiles_loop_keeps (max_profiles : Z) (rest : list string) :
  forall (i : Z) (float_df : DataFrame),
    Shape.keeps_entries
      (profiles_loop self world wmo opendap_urls max_profiles i rest float_df).
Proof.
  induction rest as [|url rest' IH]; intros i float_df; simpl.
  - apply keeps_ret.
  - destruct (i >? max_profiles); [apply keeps_ret|].
    apply keeps_bind; [|intros a; apply IH].
    intros store. apply process_profile_outcome.
Qed.

End Profiles.

(** Reading a table through the cache: on a miss the fetched table is
    put under the name and read back. *)
Lemma read_through_outcome (self : OxyFloat) (name : string)
  (fetch : result DataFrame) (store : Store) :
  try_except (_get_df self name) KeyError
    (fetched ← lift fetch; _ ← _put_df self fetched name; _get_df self name)
    store
  = match store !! name with
    | Some df => (Ok df, store)
    | None =>
        match fetch with
        | Ok df => (Ok df, <[name := df]> store)
        | Raise e => (Raise e, store)
        end
    end.
Proof.
  unfold try_except, _get_df, _put_df, mbind, M_bind, lift.
  destruct (store !! name) eqn:Hname; [reflexivity|]. simpl.
  destruct fetch as [df|e]; [|reflexivity].
  rewrite lookup_insert_eq. reflexivity.
Qed.

Lemma read_through_keeps (self : OxyFloat) (name : string)
  (fetch : result DataFrame) :
  Shape.keeps_entries
    (try_except (_get_df self name) KeyError
       (fetched ← lift fetch; _ ← _put_df self fetched name; _get_df self name)).
Proof.
  intros store. rewrite read_through_outcome.
  destruct (store !! name) eqn:Hname; [reflexivity|].
  destruct fetch; [apply insert_subseteq; assumption | reflexivity].
Qed.

Lemma get_dac_urls_keeps (self : OxyFloat) (world : World)
  (desired_float_numbers : list string) :
  Shape.keeps_entries (get_dac_urls self world desired_float_numbers).
Proof.
  unfold get_dac_urls.
  apply keeps_bind; [apply read_through_keeps|]. intros df.
  apply keeps_bind; [apply keeps_lift|]. intros files. apply keeps_lift.
Qed.

Lemma floats_loop_keeps (self : OxyFloat) (world : World) (max_profiles : Z)
  (dac_items : list (string * string)) :
  forall float_df : DataFrame,
    Shape.keeps_entries (floats_loop self world max_profiles dac_items float_df).
Proof.
  induction dac_items as [|[wmo dac_url] rest IH]; intros float_df; simpl.
  - apply keeps_ret.
  - apply keeps_bind; [apply keeps_lift|]. intros opendap_urls.
    apply keeps_bind; [apply profiles_loop_keeps | intros a; apply IH].
Qed.

(** X2. Whatever [_save_profile] is called with, either it returns a
    table, and then that table is what it has stored under the key (a
    [_get_df] right after returns it), or it raises an exception other
    than [RequiredVariableNotPresent], and then it has written nothing. *)
Theorem save_profile_stores_what_it_returns (self : OxyFloat) (world : World)
  (url : string) (count : Z) (opendap_urls : list string) (wmo key : string)
  (store : Store) :
  (exists df,
     _save_profile self world url count opendap_urls wmo key store
       = (Ok df, <[key := df]> store)
     /\ _get_df self key (<[key := df]> store) = (Ok df, <[key := df]> store))
  \/ (exists e,
     e <> RequiredVariableNotPresent
     /\ _save_profile self world url count opendap_urls wmo key store
        = (Raise e, store)).
Proof.
  rewrite save_profile_of_body. unfold _get_df.
  destruct (transform_and_validate self world wmo url) as [df|e].
  - left. exists df. rewrite lookup_insert_eq. split; reflexivity.
  - destruct e;
      first [ right; eexists; split; [|reflexivity]; discriminate
            | left; exists Pandas.empty; rewrite lookup_insert_eq;
              split; reflexivity ].
Qed.

(** X3. [get_float_dataframe] never removes or replaces an entry of the
    cache file: every table that was in the file before the call is there
    after it, under the same key, whether the call returns or raises. *)
Theorem get_float_dataframe_keeps_entries (self : OxyFloat) (world : World)
  (wmo_list : list string) (max_profiles : option Z) (store : Store) :
  store ⊆ (get_float_dataframe self world wmo_list max_profiles store).2
  /\ forall (key : string) (df : DataFrame),
       store !! key = Some df ->
       (get_float_dataframe self world wmo_list max_profiles store).2 !! key
       = Some df.
Proof.
  assert (Hkeeps : Shape.keeps_entries
                     (get_float_dataframe self world wmo_list max_profiles)).
  { unfold get_float_dataframe.
    apply keeps_bind; [apply get_dac_urls_keeps|]. intros dac_urls.
    apply floats_loop_keeps. }
  split; [apply Hkeeps|].
  intros key df Hkey. eapply lookup_weaken; [exact Hkey | apply Hkeeps].
Qed.

(** ** Running again on the cache a run has filled *)

Lemma read_through_stored (self : OxyFloat) (name : string)
  (fetch : result DataFrame) (store store1 : Store) (df : DataFrame) :
  try_except (_get_df self name) KeyError
    (fetched ← lift fetch; _ ← _put_df self fetched name; _get_df self name)
    store = (Ok df, store1) ->
  store1 !! name = Some df.
Proof.
  rewrite read_through_outcome. intros Hrun.
  destruct (store !! name) eqn:Hname.
  - injection Hrun as <- <-. exact Hname.
  - destruct fetch; [|discriminate]. injection Hrun as <- <-.
    apply lookup_insert_eq.
Qed.

Lemma read_through_hit_later (self : OxyFloat) (name : string)
  (fetch fetch' : result DataFrame) (store store1 store2 : Store) (df : DataFrame) :
  try_except (_get_df self name) KeyError
    (fetched ← lift fetch; _ ← _put_df self fetched name; _get_df self name)
    store = (Ok df, store1) ->
  store1 ⊆ store2 ->
  try_except (_get_df self name) KeyError
    (fetched ← lift fetch'; _ ← _put_df self fetched name; _get_df self name)
    store2 = (Ok df, store2).
Proof.
  rewrite !read_through_outcome. intros Hrun Hsub.
  assert (Hthere : store1 !! name = Some df).
  { destruct (store !! name) eqn:Hname.
    - injection Hrun as <- <-. exact Hname.
    - destruct fetch; [|discriminate]. injection Hrun as <- <-.
      apply lookup_insert_eq. }
  rewrite (lookup_weaken _ _ _ _ Hthere Hsub). reflexivity.
Qed.

(** [get_dac_urls] is a read of the metadata index through the cache,
    then a computation on the table that does not touch the file. *)
Lemma get_dac_urls_steps (self : OxyFloat) (world : World)
  (desired_float_numbers : list string) (store : Store) :
  get_dac_urls self world desired_float_numbers store
  = match try_except (_get_df self _GLOBAL_META) KeyError
            (fetched ← lift (_global_meta_to_df self world);
             _ ← _put_df self fetched _GLOBAL_META;
             _get_df self _GLOBAL_META) store with
    | (Ok df, store1) =>
        (files ← Pandas.getitem df "file";
         dac_rows self desired_float_numbers (Pandas.s_values files) ∅,
         store1)
    | (Raise e, store1) => (Raise e, store1)
    end.
Proof.
  unfold get_dac_urls. unfold mbind at 1, M_bind at 1.
  destruct (try_except _ _ _ store) as [[df|e] store1]; [|reflexivity].
  unfold mbind, M_bind, result_bind, lift.
  destruct (Pandas.getitem df "file"); reflexivity.
Qed.

Lemma get_dac_urls_rerun (self : OxyFloat) (world world' : World)
  (desired_float_numbers : list string) (store store1 store2 : Store)
  (dac_urls : gmap string string) :
  get_dac_urls self world desired_float_numbers store = (Ok dac_urls, store1) ->
  store1 ⊆ store2 ->
  get_dac_urls self world' desired_float_numbers store2 = (Ok dac_urls, store2).
Proof.
  rewrite !get_dac_urls_steps. intros Hrun Hsub.
  destruct (try_except (_get_df self _GLOBAL_META) KeyError
              (fetched ← lift (_global_meta_to_df self world);
               _ ← _put_df self fetched _GLOBAL_META;
               _get_df self _GLOBAL_META) store)
    as [[df|e] sta] eqn:Hread; [|discriminate].
  injection Hrun as Hrows <-.
  rewrite (read_through_hit_later self _GLOBAL_META _
             (_global_meta_to_df self world') store sta store2 df Hread Hsub).
  rewrite Hrows. reflexivity.
Qed.

Lemma profiles_loop_rerun (self : OxyFloat) (world world' : World) (wmo : string)
  (opendap_urls : list string) (max_profiles : Z) (rest : list string) :
  forall (i : Z) (float_df out : DataFrame) (store store1 store2 : Store),
    profiles_loop self world wmo opendap_urls max_profiles i rest float_df store
      = (Ok out, store1) ->
    store1 ⊆ store2 ->
    profiles_loop self world' wmo opendap_urls max_profiles i rest float_df store2
      = (Ok out, store2).
Proof.
  induction rest as [|url rest' IH];
    intros i float_df out store store1 store2 Hrun Hsub; simpl in *.
  - injection Hrun as <- <-. reflexivity.
  - destruct (i >? max_profiles); [injection Hrun as <- <-; reflexivity|].
    unfold mbind, M_bind in *.
    pose proof (process_profile_outcome self world wmo opendap_urls i url
                  float_df store) as [_ Hok].
    destruct (process_profile self world wmo opendap_urls i url float_df store)
      as [[float_df'|e] sta]; [|discriminate].
    destruct (Hok float_df' sta eq_refl) as (df & Hkey & ->).
    pose proof (profiles_loop_keeps self world wmo opendap_urls max_profiles
                  rest' (i + 1) (Pandas.append float_df df) sta) as Hkeeps.
    rewrite Hrun in Hkeeps. simpl in Hkeeps.
    assert (Hkey2 : store2 !! _url_to_naturalname self url = Some df).
    { eapply lookup_weaken; [exact Hkey | etransitivity; eassumption]. }
    rewrite (process_profile_hit self world' wmo opendap_urls i url float_df df
               store2 Hkey2).
    eapply IH; eassumption.
Qed.

Lemma same_catalogs_opendap_urls (self : OxyFloat) (world world' : World)
  (catalog_url : string) :
  Shape.same_catalogs world world' ->
  get_profile_opendap_urls self world catalog_url
  = get_profile_opendap_urls self world' catalog_url.
Proof.
  intros [Hget Hsoup]. unfold get_profile_opendap_urls.
  rewrite <- Hget. destruct (requests_get world catalog_url); [|reflexivity].
  rewrite <- Hsoup. reflexivity.
Qed.

(** One turn of the outer loop. *)
Lemma floats_loop_cons (self : OxyFloat) (world : World) (max_profiles : Z)
  (wmo dac_url : string) (rest : list (string * string))
  (float_df : DataFrame) (store : Store) :
  floats_loop self world max_profiles ((wmo, dac_url) :: rest) float_df store
  = match get_profile_opendap_urls self world dac_url with
    | Raise e => (Raise e, store)
    | Ok opendap_urls =>
        match profiles_loop self world wmo opendap_urls max_profiles 0
                opendap_urls float_df store with
        | (Ok float_df', store1) =>
            floats_loop self world max_profiles rest float_df' store1
        | (Raise e, store1) => (Raise e, store1)
        end
    end.
Proof.
  simpl. unfold mbind at 1, M_bind at 1, lift.
  destruct (get_profile_opendap_urls self world dac_url); reflexivity.
Qed.

Lemma floats_loop_rerun (self : OxyFloat) (world world' : World)
  (max_profiles : Z) (dac_items : list (string * string)) :
  Shape.same_catalogs world world' ->
  forall (float_df out : DataFrame) (store store1 store2 : Store),
    floats_loop self world max_profiles dac_items float_df store = (Ok out, store1) ->
    store1 ⊆ store2 ->
    floats_loop self world' max_profiles dac_items float_df store2 = (Ok out, store2).
Proof.
  intros Hsame.
  induction dac_items as [|[wmo dac_url] rest IH];
    intros float_df out store store1 store2 Hrun Hsub.
  - simpl in *. injection Hrun as <- <-. reflexivity.
  - rewrite floats_loop_cons in *.
    rewrite <- (same_catalogs_opendap_urls self world world' dac_url Hsame).
    destruct (get_profile_opendap_urls self world dac_url) as [urls|e];
      [|discriminate].
    destruct (profiles_loop self world wmo urls max_profiles 0 urls float_df store)
      as [[float_df'|e] sta] eqn:Hinner; [|discriminate].
    pose proof (floats_loop_keeps self world max_profiles rest float_df' sta)
      as Hkeeps.
    rewrite Hrun in Hkeeps. simpl in Hkeeps.
    rewrite (profiles_loop_rerun self world world' wmo urls max_profiles urls 0
               float_df float_df' store sta store2 Hinner);
      [|etransitivity; eassumption].
    eapply IH; eassumption.
Qed.

(** X4. When [get_float_dataframe] has returned, the same call on the
    cache file it left (or on that file with more entries) returns the
    same merged table and changes nothing in the file, and it needs
    nothing from outside but the catalogs: no dataset and no metadata index
    is read, so profiles that were stored as empty are not fetched again. *)
Theorem get_float_dataframe_rerun (self : OxyFloat) (world world' : World)
  (wmo_list : list string) (max_profiles : option Z)
  (store store1 store2 : Store) (out : DataFrame)
  (Hcatalogs : Shape.same_catalogs world world')
  (Hrun : get_float_dataframe self world wmo_list max_profiles store
          = (Ok out, store1))
  (Hlater : store1 ⊆ store2) :
  get_float_dataframe self world' wmo_list max_profiles store2 = (Ok out, store2).
Proof.
  unfold get_float_dataframe in *.
  unfold mbind, M_bind in *.
  destruct (get_dac_urls self world wmo_list store) as [[dac_urls|e] sta] eqn:Hdac;
    [|discriminate].
  pose proof (floats_loop_keeps self world
                (effective_max_profiles self max_profiles)
                (map_to_list dac_urls) Pandas.empty sta) as Hkeeps.
  rewrite Hrun in Hkeeps. simpl in Hkeeps.
  rewrite (get_dac_urls_rerun self world world' wmo_list store sta store2
             dac_urls Hdac); [|etransitivity; eassumption].
  eapply floats_loop_rerun; eassumption.
Qed.

Lemma get_float_dataframe_rerun_witness :
  Shape.same_catalogs (Fixture.world_with Fixture.profile) Fixture.catalogs_only
  /\ get_float_dataframe Fixture.default_object (Fixture.world_with Fixture.profile)
       ["1900722"] (Some 2) ∅
     = (Ok (Pandas.append (Pandas.append Fixture.table Fixture.table) Fixture.table),
        Fixture.filled_store)
  /\ get_float_dataframe Fixture.default_object Fixture.catalogs_only
       ["1900722"] (Some 2) Fixture.filled_store
     = (Ok (Pandas.append (Pandas.append Fixture.table Fixture.table) Fixture.table),
        Fixture.filled_store).
Proof.
  assert (Hsame : Shape.same_catalogs (Fixture.world_with Fixture.profile)
                    Fixture.catalogs_only)
    by (split; intros; reflexivity).
  assert (Hrun : get_float_dataframe Fixture.default_object
                   (Fixture.world_with Fixture.profile) ["1900722"] (Some 2) ∅
                 = (Ok (Pandas.append (Pandas.append Fixture.table Fixture.table)
                          Fixture.table),
                    Fixture.filled_store))
    by (vm_compute; reflexivity).
  split; [exact Hsame|]. split; [exact Hrun|].
  apply (get_float_dataframe_rerun Fixture.default_object
           (Fixture.world_with Fixture.profile) Fixture.catalogs_only
           ["1900722"] (Some 2) ∅ Fixture.filled_store Fixture.filled_store
           _ Hsame Hrun).
  reflexivity.
Defined.

(** ** The catalog URLs of the requested floats *)

Lemma split_nonempty (sep : ascii) (s : string) : Str.split sep s <> [].
Proof.
  destruct s as [|c s]; simpl; [discriminate|].
  destruct (Ascii.eqb c sep); [discriminate|].
  destruct (Str.split sep s); discriminate.
Qed.

(** No piece of a split has the separator in it. *)
Lemma split_lacks (sep : ascii) (s : string) :
  Forall (fun w => Shape.lacks sep w = true) (Str.split sep s).
Proof.
  induction s as [|c s IH]; simpl.
  - repeat constructor.
  - destruct (Ascii.eqb c sep) eqn:Hc.
    + constructor; [reflexivity | exact IH].
    + destruct (Str.split sep s) as [|w ws].
      * repeat constructor. simpl. rewrite Hc. reflexivity.
      * inversion IH as [|? ? Hw Hws]; subst.
        constructor; [simpl; rewrite Hc, Hw; reflexivity | exact Hws].
Qed.

Lemma split_second (file floatNum : string) :
  Str.split "/" file !! 1%nat = Some floatNum ->
  exists dac tail, Str.split "/" file = dac :: floatNum :: tail.
Proof.
  destruct (Str.split "/" file) as [|dac [|k tail]]; try discriminate.
  intros [= ->]. eauto.
Qed.

Section DacRows.

Variables (self : OxyFloat) (desired_float_numbers : list string).

(** The catalog URL [get_dac_urls] makes for a float of a centre. *)
Let catalog_of (dac floatNum : string) : string :=
  thredds_url self +:+ (dac +:+ "/" +:+ floatNum) +:+ "/profiles/catalog.xml".

Lemma dac_rows_sound (files : list cell) :
  forall (acc dac_urls : gmap string string),
    dac_rows self desired_float_numbers files acc = Ok dac_urls ->
    forall floatNum url,
      dac_urls !! floatNum = Some url ->
      acc !! floatNum = Some url
      \/ (floatNum ∈ desired_float_numbers
          /\ exists file dac tail,
               Str file ∈ files
               /\ Str.split "/" file = dac :: floatNum :: tail
               /\ url = catalog_of dac floatNum).
Proof.
  induction files as [|c files IH]; intros acc dac_urls Hrun floatNum url Hurl.
  - injection Hrun as <-. left. exact Hurl.
  - destruct c as [|q|file]; try discriminate. simpl in Hrun.
    destruct (Str.split "/" file !! 1%nat) as [k|] eqn:Hk; [|discriminate].
    destruct (split_second file k Hk) as (dac & tail & Hsplit).
    assert (Hlater : forall P : Prop,
              (floatNum ∈ desired_float_numbers /\
               exists file' dac' tail',
                 Str file' ∈ files
                 /\ Str.split "/" file' = dac' :: floatNum :: tail'
                 /\ url = catalog_of dac' floatNum) ->
              P \/ (floatNum ∈ desired_float_numbers /\
                    exists file' dac' tail',
                      Str file' ∈ Str file :: files
                      /\ Str.split "/" file' = dac' :: floatNum :: tail'
                      /\ url = catalog_of dac' floatNum)).
    { intros P (Hin & f & d & t & Hf & Hs & Hu). right. split; [exact Hin|].
      exists f, d, t. split; [right; exact Hf | split; assumption]. }
    case_bool_decide as Hdesired.
    + destruct (IH _ _ Hrun floatNum url Hurl) as [Hacc | Hrest];
        [|apply Hlater; exact Hrest].
      destruct (decide (k = floatNum)) as [->|Hne].
      * rewrite lookup_insert_eq in Hacc. injection Hacc as <-.
        right. split; [exact Hdesired|].
        exists file, dac, tail. split; [left|]. split; [exact Hsplit|].
        rewrite Hsplit. reflexivity.
      * rewrite lookup_insert_ne in Hacc by assumption. left. exact Hacc.
    + destruct (IH _ _ Hrun floatNum url Hurl) as [Hacc | Hrest];
        [left; exact Hacc | apply Hlater; exact Hrest].
Qed.

Lemma dac_rows_complete (files : list cell) :
  forall (acc dac_urls : gmap string string),
    dac_rows self desired_float_numbers files acc = Ok dac_urls ->
    (forall floatNum, is_Some (acc !! floatNum) -> is_Some (dac_urls !! floatNum))
    /\ forall file dac floatNum tail,
         Str file ∈ files ->
         Str.split "/" file = dac :: floatNum :: tail ->
         floatNum ∈ desired_float_numbers ->
         is_Some (dac_urls !! floatNum).
Proof.
  induction files as [|c files IH]; intros acc dac_urls Hrun.
  - injection Hrun as <-. split; [auto|].
    intros file dac floatNum tail Hin. inversion Hin.
  - destruct c as [|q|file0]; try discriminate. simpl in Hrun.
    destruct (Str.split "/" file0 !! 1%nat) as [k|] eqn:Hk; [|discriminate].
    case_bool_decide as Hdesired.
    + destruct (IH _ _ Hrun) as [Hacc Hrows]. split.
      * intros floatNum Hsome. apply Hacc.
        destruct (decide (k = floatNum)) as [->|Hne].
        -- rewrite lookup_insert_eq. eauto.
        -- rewrite lookup_insert_ne by assumption. exact Hsome.
      * intros file dac floatNum tail Hin Hsplit Hwanted.
        apply elem_of_cons in Hin as [[= <-] | Hin]; [|eapply Hrows; eassumption].
        rewrite Hsplit in Hk. injection Hk as <-.
        apply Hacc. rewrite lookup_insert_eq. eauto.
    + destruct (IH _ _ Hrun) as [Hacc Hrows]. split; [exact Hacc|].
      intros file dac floatNum tail Hin Hsplit Hwanted.
      apply elem_of_cons in Hin as [[= <-] | Hin]; [|eapply Hrows; eassumption].
      rewrite Hsplit in Hk. injection Hk as <-. contradiction.
Qed.

End DacRows.

(** The table a successful [get_dac_urls] worked on is the metadata index
    in the cache file it leaves. *)
Lemma get_dac_urls_table (self : OxyFloat) (world : World)
  (desired_float_numbers : list string) (store store' : Store)
  (dac_urls : gmap string string) :
  get_dac_urls self world desired_float_numbers store = (Ok dac_urls, store') ->
  exists df files,
    store' !! _GLOBAL_META = Some df
    /\ Pandas.lookup_column "file" (Pandas.df_columns df) = Some files
    /\ dac_rows self desired_float_numbers files ∅ = Ok dac_urls.
Proof.
  rewrite get_dac_urls_steps, read_through_outcome.
  assert (Htail : forall df sta,
            sta !! _GLOBAL_META = Some df ->
            (files ← Pandas.getitem df "file";
             dac_rows self desired_float_numbers (Pandas.s_values files) ∅, sta)
            = (Ok dac_urls, store') ->
            exists df files,
              store' !! _GLOBAL_META = Some df
              /\ Pandas.lookup_column "file" (Pandas.df_columns df) = Some files
              /\ dac_rows self desired_float_numbers files ∅ = Ok dac_urls).
  { intros df sta Hdf [= Hrows <-]. exists df.
    unfold Pandas.getitem in Hrows.
    destruct (Pandas.lookup_column "file" (Pandas.df_columns df)) as [files|];
      [|discriminate].
    exists files. split; [exact Hdf|]. split; [reflexivity | exact Hrows]. }
  destruct (store !! _GLOBAL_META) as [df|] eqn:Hcached.
  - apply Htail. exact Hcached.
  - destruct (_global_meta_to_df self world) as [df|e]; [|discriminate].
    apply Htail. apply lookup_insert_eq.
Qed.

(** X5. When [get_dac_urls] returns, its dictionary has an entry for
    exactly the requested floats that a row of the metadata index names as
    the second piece of its file path; the entry is the THREDDS base
    followed, with no separator, by centre [/] float and
    [/profiles/catalog.xml].  Requested floats without a row are absent. *)
Theorem get_dac_urls_entries (self : OxyFloat) (world : World)
  (desired_float_numbers : list string) (store store' : Store)
  (dac_urls : gmap string string)
  (Hrun : get_dac_urls self world desired_float_numbers store
          = (Ok dac_urls, store')) :
  exists df files,
    store' !! _GLOBAL_META = Some df
    /\ Pandas.lookup_column "file" (Pandas.df_columns df) = Some files
    /\ (forall floatNum url,
          dac_urls !! floatNum = Some url ->
          floatNum ∈ desired_float_numbers
          /\ exists file dac tail,
               Str file ∈ files
               /\ Str.split "/" file = dac :: floatNum :: tail
               /\ url = thredds_url self +:+ (dac +:+ "/" +:+ floatNum)
                          +:+ "/profiles/catalog.xml")
    /\ (forall file dac floatNum tail,
          Str file ∈ files ->
          Str.split "/" file = dac :: floatNum :: tail ->
          floatNum ∈ desired_float_numbers ->
          is_Some (dac_urls !! floatNum)).
Proof.
  destruct (get_dac_urls_table self world desired_float_numbers store store'
              dac_urls Hrun) as (df & files & Hdf & Hfiles & Hrows).
  exists df, files. split; [exact Hdf|]. split; [exact Hfiles|]. split.
  - intros floatNum url Hurl.
    destruct (dac_rows_sound self desired_float_numbers files ∅ dac_urls Hrows
                floatNum url Hurl) as [Hempty | Hrow]; [|exact Hrow].
    rewrite lookup_empty in Hempty. discriminate.
  - apply (dac_rows_complete self desired_float_numbers files ∅ dac_urls Hrows).
Qed.

Lemma get_dac_urls_entries_witness :
  get_dac_urls Fixture.default_object (Fixture.world_with Fixture.profile)
    ["1900722"; "5900001"] ∅
  = (Ok {[ "1900722" := Fixture.catalog_url ]},
     {[ _GLOBAL_META := Fixture.meta_table ]})
  /\ exists df files,
       ({[ _GLOBAL_META := Fixture.meta_table ]} : Store) !! _GLOBAL_META = Some df
       /\ Pandas.lookup_column "file" (Pandas.df_columns df) = Some files
       /\ (forall floatNum url,
             ({[ "1900722" := Fixture.catalog_url ]} : gmap string string)
               !! floatNum = Some url ->
             floatNum ∈ ["1900722"; "5900001"]
             /\ exists file dac tail,
                  Str file ∈ files
                  /\ Str.split "/" file = dac :: floatNum :: tail
                  /\ url = thredds_url Fixture.default_object
                             +:+ (dac +:+ "/" +:+ floatNum)
                             +:+ "/profiles/catalog.xml")
       /\ (forall file dac floatNum tail,
             Str file ∈ files ->
             Str.split "/" file = dac :: floatNum :: tail ->
             floatNum ∈ ["1900722"; "5900001"] ->
             is_Some (({[ "1900722" := Fixture.catalog_url ]} : gmap string string)
                        !! floatNum)).
Proof.
  assert (Hrun : get_dac_urls Fixture.default_object
                   (Fixture.world_with Fixture.profile) ["1900722"; "5900001"] ∅
                 = (Ok {[ "1900722" := Fixture.catalog_url ]},
                    {[ _GLOBAL_META := Fixture.meta_table ]}))
    by (vm_compute; reflexivity).
  split; [exact Hrun|].
  exact (get_dac_urls_entries Fixture.default_object
           (Fixture.world_with Fixture.profile) ["1900722"; "5900001"] ∅ _ _ Hrun).
Defined.

Lemma split_of_lacks (sep : ascii) (s : string) :
  Shape.lacks sep s = true -> Str.split sep s = [s].
Proof.
  induction s as [|c s IH]; simpl; [reflexivity|].
  intros [Hc Hs]%andb_true_iff. apply negb_true_iff in Hc.
  rewrite Hc, IH by assumption. reflexivity.
Qed.

Lemma dac_rows_malformed (self : OxyFloat) (desired_float_numbers : list string)
  (files : list cell) :
  Forall (fun c => exists file, c = Str file) files ->
  Exists (fun c => exists file, c = Str file /\ Shape.lacks "/" file = true) files ->
  forall acc, dac_rows self desired_float_numbers files acc = Raise IndexError.
Proof.
  intros Hall Hbad. induction Hbad as [c files (file & -> & Hlacks) | c files Hbad IH];
    intros acc; simpl.
  - rewrite (split_of_lacks "/" file Hlacks). reflexivity.
  - inversion Hall as [|? ? (file & ->) Hrest]; subst.
    destruct (Str.split "/" file !! 1%nat); [|reflexivity].
    case_bool_decide; apply IH; assumption.
Qed.

(** X6. One row of the cached metadata index whose file path has no
    [/] makes [get_dac_urls] raise [IndexError], whichever floats are
    requested (the path column holding text throughout); the cache file is
    left as it was. *)
Theorem get_dac_urls_malformed_row (self : OxyFloat) (world : World)
  (desired_float_numbers : list string) (store : Store) (df : DataFrame)
  (files : list cell)
  (Hcached : store !! _GLOBAL_META = Some df)
  (Hfiles : Pandas.lookup_column "file" (Pandas.df_columns df) = Some files)
  (Htext : Forall (fun c => exists file, c = Str file) files)
  (Hbad : Exists (fun c => exists file, c = Str file /\ Shape.lacks "/" file = true)
            files) :
  get_dac_urls self world desired_float_numbers store = (Raise IndexError, store).
Proof.
  rewrite get_dac_urls_steps, read_through_outcome, Hcached.
  unfold Pandas.getitem. rewrite Hfiles. cbn.
  rewrite (dac_rows_malformed self desired_float_numbers files Htext Hbad).
  reflexivity.
Qed.

Lemma get_dac_urls_malformed_row_witness :
  get_dac_urls Fixture.default_object (Fixture.world_with Fixture.profile) []
    {[ _GLOBAL_META :=
         Pandas.mkDataFrame [[Spec.int_cell 0]; [Spec.int_cell 1]]
           [("file", [Str "aoml/1900722/1900722_meta.nc"; Str "README"])] ]}
  = (Raise IndexError,
     {[ _GLOBAL_META :=
          Pandas.mkDataFrame [[Spec.int_cell 0]; [Spec.int_cell 1]]
            [("file", [Str "aoml/1900722/1900722_meta.nc"; Str "README"])] ]}).
Proof.
  apply (get_dac_urls_malformed_row Fixture.default_object
           (Fixture.world_with Fixture.profile) [] _
           (Pandas.mkDataFrame [[Spec.int_cell 0]; [Spec.int_cell 1]]
              [("file", [Str "aoml/1900722/1900722_meta.nc"; Str "README"])])
           [Str "aoml/1900722/1900722_meta.nc"; Str "README"]).
  - reflexivity.
  - reflexivity.
  - repeat constructor; eexists; reflexivity.
  - right. left. exists "README". split; reflexivity.
Defined.

(** ** The catalog reader, beyond connection errors *)

(** X7. An HTTP read of a catalog that ends in any exception other than
    a connection error is not absorbed: [get_profile_opendap_urls] raises
    it, and the outer loop of [get_float_dataframe] stops at that float
    with the same exception, the floats after it unvisited and the cache
    file as it stood. *)
Theorem catalog_other_failure (self : OxyFloat) (world : World)
  (catalog_url : string) (e : exn)
  (Hfail : requests_get world catalog_url = Raise e)
  (Hother : e <> ConnectionError) :
  get_profile_opendap_urls self world catalog_url = Raise e
  /\ forall (max_profiles : Z) (wmo : string) (rest : list (string * string))
            (float_df : DataFrame) (store : Store),
       floats_loop self world max_profiles ((wmo, catalog_url) :: rest)
         float_df store
       = (Raise e, store).
Proof.
  assert (Hraise : get_profile_opendap_urls self world catalog_url = Raise e).
  { unfold get_profile_opendap_urls. rewrite Hfail.
    destruct e; try reflexivity. contradiction. }
  split; [exact Hraise|].
  intros max_profiles wmo rest float_df store.
  rewrite floats_loop_cons, Hraise. reflexivity.
Qed.

Lemma catalog_other_failure_witness :
  requests_get Fixture.timing_out Fixture.catalog_url = Raise OtherError
  /\ get_profile_opendap_urls Fixture.default_object Fixture.timing_out
       Fixture.catalog_url = Raise OtherError
  /\ floats_loop Fixture.default_object Fixture.timing_out 2
       [("1900722", Fixture.catalog_url); ("5900001", Fixture.catalog_url)]
       Pandas.empty ∅
     = (Raise OtherError, ∅).
Proof.
  assert (Hother : OtherError <> ConnectionError) by discriminate.
  pose proof (catalog_other_failure Fixture.default_object Fixture.timing_out
                Fixture.catalog_url OtherError eq_refl Hother) as [Hraise Hloop].
  split; [reflexivity|]. split; [exact Hraise | apply Hloop].
Defined.

Lemma split_segment (sep : ascii) (seg rest : string) :
  Shape.lacks sep seg = true ->
  Str.split sep (seg +:+ String sep rest) = seg :: Str.split sep rest.
Proof.
  induction seg as [|c seg IH]; simpl.
  - intros _. rewrite Ascii.eqb_refl. reflexivity.
  - intros [Hc Hseg]%andb_true_iff. apply negb_true_iff in Hc.
    rewrite Hc, IH by assumption. reflexivity.
Qed.

Lemma split_piece (sep : ascii) (seg rest : string) :
  Shape.lacks sep seg = true ->
  Str.split sep (seg +:+ String sep EmptyString +:+ rest)
  = seg :: Str.split sep rest.
Proof. apply split_segment. Qed.

(** X8. When the catalog is read, the locators returned are, in
    document order, one for each [urlpath] that ends in [nc]: the first four
    [/]-separated pieces of the catalog URL (scheme, the empty piece, host
    and first path segment), then [/dodsC/], then the [urlpath]. *)
Theorem opendap_urls_of_catalog (self : OxyFloat) (world : World)
  (catalog_url s0 s1 s2 s3 rest text : string)
  (Hurl : catalog_url
          = s0 +:+ "/" +:+ s1 +:+ "/" +:+ s2 +:+ "/" +:+ s3 +:+ "/" +:+ rest)
  (H0 : Shape.lacks "/" s0 = true) (H1 : Shape.lacks "/" s1 = true)
  (H2 : Shape.lacks "/" s2 = true) (H3 : Shape.lacks "/" s3 = true)
  (Hread : requests_get world catalog_url = Ok text) :
  get_profile_opendap_urls self world catalog_url
  = Ok (map (fun urlpath =>
               ((s0 +:+ "/" +:+ s1 +:+ "/" +:+ s2 +:+ "/" +:+ s3) +:+ "/dodsC/")
                 +:+ urlpath)
          (filter (fun p => Re.search_lit_at_end "nc" p = true)
             (soup_dataset_urlpaths world text))).
Proof.
  unfold get_profile_opendap_urls. rewrite Hread.
  assert (Hsplit : take 4 (Str.split "/" catalog_url) = [s0; s1; s2; s3]).
  { rewrite Hurl. rewrite !split_piece by assumption.
    pose proof (split_nonempty "/" rest) as Hne.
    destruct (Str.split "/" rest); [contradiction | reflexivity]. }
  rewrite Hsplit. reflexivity.
Qed.

Lemma opendap_urls_of_catalog_witness :
  Fixture.catalog_url
    = "http:" +:+ "/" +:+ "" +:+ "/" +:+ "tds0.ifremer.fr" +:+ "/" +:+ "thredds"
        +:+ "/" +:+ "catalog/CORIOLIS-ARGO-GDAC-OBSaoml/1900722/profiles/catalog.xml"
  /\ requests_get (Fixture.world_with Fixture.profile) Fixture.catalog_url
     = Ok "<catalog/>"
  /\ get_profile_opendap_urls Fixture.default_object
       (Fixture.world_with Fixture.profile) Fixture.catalog_url
     = Ok (map Fixture.locator ["1"; "2"; "3"; "4"; "5"]).
Proof.
  split; [reflexivity|]. split; [reflexivity|].
  exact (opendap_urls_of_catalog Fixture.default_object
           (Fixture.world_with Fixture.profile) Fixture.catalog_url
           "http:" "" "tds0.ifremer.fr" "thredds"
           "catalog/CORIOLIS-ARGO-GDAC-OBSaoml/1900722/profiles/catalog.xml"
           "<catalog/>" eq_refl eq_refl eq_refl eq_refl eq_refl eq_refl).
Defined.

(** ** Cache files named by the convention *)

Lemma digit_char_facts (d : Z) :
  0 <= d < 10 ->
  Re.class_matches Re.digit (digit_char d) = true
  /\ Str.digit_value (digit_char d) = d.
Proof.
  intros Hd.
  assert (Hcases : d = 0 \/ d = 1 \/ d = 2 \/ d = 3 \/ d = 4 \/ d = 5 \/ d = 6
                   \/ d = 7 \/ d = 8 \/ d = 9) by lia.
  repeat (destruct Hcases as [->|Hcases]; [split; reflexivity|]).
  subst. split; reflexivity.
Qed.

Lemma append_assoc (a b c : string) : (a +:+ b) +:+ c = a +:+ (b +:+ c).
Proof.
  induction a as [|x a IH]; [reflexivity|].
  change (String x ((a +:+ b) +:+ c) = String x (a +:+ (b +:+ c))).
  rewrite IH. reflexivity.
Qed.

Lemma decimal_app (fuel : nat) :
  forall (n : Z) (acc : string),
    decimal fuel n acc = decimal fuel n "" +:+ acc.
Proof.
  induction fuel as [|fuel IH]; intros n acc; simpl; [reflexivity|].
  destruct (n <? 10); [reflexivity|].
  rewrite (IH (n / 10) (String (digit_char (n mod 10)) acc)).
  rewrite (IH (n / 10) (String (digit_char (n mod 10)) "")).
  rewrite append_assoc. reflexivity.
Qed.

Lemma decimal_digits (fuel : nat) :
  forall (n : Z) (acc : string),
    0 <= n ->
    Re.take_class Re.digit acc = acc ->
    Re.take_class Re.digit (decimal fuel n acc) = decimal fuel n acc.
Proof.
  induction fuel as [|fuel IH]; intros n acc Hn Hacc; simpl; [exact Hacc|].
  assert (Hdigit : Re.take_class Re.digit (String (digit_char (n mod 10)) acc)
                   = String (digit_char (n mod 10)) acc).
  { simpl. destruct (digit_char_facts (n mod 10)) as [-> _].
    - apply Z.mod_pos_bound. lia.
    - rewrite Hacc. reflexivity. }
  destruct (n <? 10); [exact Hdigit|].
  apply IH; [apply Z.div_pos; lia | exact Hdigit].
Qed.

Lemma decimal_nonempty (fuel : nat) :
  forall (n : Z) (c : ascii) (acc : string),
    exists c' s', decimal fuel n (String c acc) = String c' s'.
Proof.
  induction fuel as [|fuel IH]; intros n c acc; simpl; [eauto|].
  destruct (n <? 10); [eauto | apply IH].
Qed.

Lemma int_of_digits_app (s t : string) :
  Str.int_of_digits (s +:+ t)
  = fold_left (fun acc c => 10 * acc + Str.digit_value c)
      (list_ascii_of_string t) (Str.int_of_digits s).
Proof.
  unfold Str.int_of_digits.
  assert (Hlist : forall a b, list_ascii_of_string (a +:+ b)
                              = list_ascii_of_string a ++ list_ascii_of_string b).
  { intros a b. induction a as [|x a IH]; simpl; [reflexivity | rewrite IH; reflexivity]. }
  rewrite Hlist, fold_left_app. reflexivity.
Qed.

Lemma int_of_decimal (fuel : nat) :
  forall n : Z,
    0 <= n < 2 ^ Z.of_nat fuel ->
    Str.int_of_digits (decimal fuel n "") = n.
Proof.
  induction fuel as [|fuel IH]; intros n Hn.
  - simpl in *. unfold Str.int_of_digits. simpl. lia.
  - simpl decimal.
    assert (Hmod : 0 <= n mod 10 < 10) by (apply Z.mod_pos_bound; lia).
    destruct (digit_char_facts (n mod 10) Hmod) as [_ Hvalue].
    destruct (Z.ltb_spec n 10) as [Hsmall | Hbig].
    + unfold Str.int_of_digits. simpl. rewrite Hvalue.
      rewrite Z.mod_small by lia. lia.
    + rewrite decimal_app, int_of_digits_app. simpl.
      rewrite Hvalue, IH.
      * pose proof (Z.div_mod n 10). lia.
      * rewrite Nat2Z.inj_succ, Z.pow_succ_r in Hn by lia.
        split; [apply Z.div_pos; lia|].
        apply Z.div_lt_upper_bound; lia.
Qed.

(** [int] reads back what ['{:d}'] prints. *)
Lemma int_of_format_d (n : Z) :
  0 <= n ->
  Str.int_of_digits (format_d n) = n
  /\ Re.take_class Re.digit (format_d n) = format_d n
  /\ exists c s, format_d n = String c s.
Proof.
  intros Hn. unfold format_d.
  destruct (Z.ltb_spec n 0) as [|_]; [lia|].
  split; [|split].
  - apply int_of_decimal. split; [exact Hn|].
    rewrite Nat2Z.inj_succ, Z2Nat.id by apply Z.log2_nonneg.
    destruct (Z.eq_dec n 0) as [->|Hpos]; [reflexivity|].
    apply Z.log2_spec. lia.
  - apply decimal_digits; [exact Hn | reflexivity].
  - simpl. destruct (n <? 10); [eauto | apply decimal_nonempty].
Qed.

Lemma take_class_app (cls : Re.char_class) (s : string) (c : ascii) (rest : string) :
  Re.take_class cls s = s ->
  Re.class_matches cls c = false ->
  Re.take_class cls (s +:+ String c rest) = s.
Proof.
  intros Hs Hc. induction s as [|x s IH]; simpl in *.
  - rewrite Hc. reflexivity.
  - destruct (Re.class_matches cls x); [|discriminate].
    injection Hs as Hs. rewrite IH by exact Hs. reflexivity.
Qed.

(** The search for [max_profiles_] skips a text without the letter [m]. *)
Lemma search_skips (pre s : string) :
  Shape.lacks "m" pre = true ->
  Re.search_lit_group "max_profiles_" Re.digit (pre +:+ s)
  = Re.search_lit_group "max_profiles_" Re.digit s.
Proof.
  induction pre as [|c pre IH]; [reflexivity|].
  intros [Hc Hpre]%andb_true_iff. apply negb_true_iff in Hc.
  change (String c pre +:+ s) with (String c (pre +:+ s)).
  cbn [Re.search_lit_group].
  unfold Re.match_lit_group at 1. cbn [Str.strip_prefix].
  rewrite Ascii.eqb_sym, Hc. apply IH. exact Hpre.
Qed.

(** X9. A cache file named by [cache_file_fmt] for the profile count
    [n >= 0] encodes the cap [n]: [_get_cache_file_parms] reads [n] back
    from the name and, the caller giving no cap, returns it. *)
Theorem cache_file_fmt_roundtrip (self : OxyFloat) (age : string) (n : Z)
  (Hn : 0 <= n)
  (Hage : Shape.lacks "m" age = true)
  (Hfile : cache_file_requested self = Some (cache_file_fmt age n)) :
  cache_file_max self = Some n
  /\ _get_cache_file_parms self None = Some n.
Proof.
  destruct (int_of_format_d n Hn) as (Hint & Hdigits & c & s & Hshape).
  assert (Hsearch :
    Re.search_lit_group "max_profiles_" Re.digit (cache_file_fmt age n)
    = Some (format_d n)).
  { unfold cache_file_fmt.
    rewrite (search_skips "oxyfloat_age_") by reflexivity.
    rewrite (search_skips age) by exact Hage.
    change ("_max_profiles_" +:+ format_d n +:+ ".hdf")
      with ("_" +:+ "max_profiles_" +:+ format_d n +:+ ".hdf").
    rewrite (search_skips "_") by reflexivity.
    change ("max_profiles_" +:+ format_d n +:+ ".hdf")
      with (String "m" ("ax_profiles_" +:+ format_d n +:+ ".hdf")).
    cbn [Re.search_lit_group]. unfold Re.match_lit_group.
    change (Str.strip_prefix "max_profiles_"
              (String "m" ("ax_profiles_" +:+ format_d n +:+ ".hdf")))
      with (Some (format_d n +:+ String "." "hdf")).
    cbv beta iota.
    rewrite (take_class_app Re.digit (format_d n) "." "hdf" Hdigits eq_refl).
    rewrite Hshape. reflexivity. }
  assert (Hmax : cache_file_max self = Some n).
  { unfold cache_file_max. rewrite Hfile, Hsearch, Hint. reflexivity. }
  split; [exact Hmax|].
  rewrite get_cache_file_parms_cases, Hmax. reflexivity.
Qed.

Lemma cache_file_fmt_roundtrip_witness :
  0 <= 5
  /\ Shape.lacks "m" "340" = true
  /\ cache_file_fmt "340" 5 = "oxyfloat_age_340_max_profiles_5.hdf"
  /\ cache_file_max
       (Fixture.object_with_cache_file "oxyfloat_age_340_max_profiles_5.hdf")
     = Some 5
  /\ _get_cache_file_parms
       (Fixture.object_with_cache_file "oxyfloat_age_340_max_profiles_5.hdf") None
     = Some 5.
Proof.
  assert (H5 : 0 <= 5) by lia.
  split; [exact H5|]. split; [reflexivity|]. split; [reflexivity|].
  exact (cache_file_fmt_roundtrip
           (Fixture.object_with_cache_file "oxyfloat_age_340_max_profiles_5.hdf")
           "340" 5 H5 eq_refl eq_refl).
Defined.

(** ** The cap, at its edges *)

(** X10. [_get_cache_file_parms] gives the caller's cap back when the
    cache file encodes none, never returns more than a caller's nonzero
    cap, and applied to its own result changes nothing. *)
Theorem get_cache_file_parms_never_raises (self : OxyFloat)
  (max_profiles : option Z) :
  (cache_file_max self = None ->
   _get_cache_file_parms self max_profiles = max_profiles)
  /\ (forall n, n <> 0 ->
      exists m, _get_cache_file_parms self (Some n) = Some m /\ m <= n)
  /\ _get_cache_file_parms self (_get_cache_file_parms self max_profiles)
     = _get_cache_file_parms self max_profiles.
Proof.
  rewrite !get_cache_file_parms_cases.
  destruct (cache_file_max self) as [c|] eqn:Hfile.
  - split; [discriminate|]. split.
    + intros n Hn. rewrite get_cache_file_parms_cases, Hfile.
      destruct (Z.eqb_spec n 0); [contradiction|]. simpl.
      destruct (Z.gtb_spec n c); eexists; (split; [reflexivity | lia]).
    + destruct max_profiles as [n|].
      * destruct (Z.eqb_spec n 0) as [->|Hn]; simpl.
        -- destruct (Z.eqb_spec c 0); [reflexivity|]. simpl.
           rewrite Z.gtb_ltb, Z.ltb_irrefl. destruct (c =? 0); reflexivity.
        -- destruct (Z.gtb_spec n c) as [Hgt|Hle].
           ++ rewrite Z.gtb_ltb, Z.ltb_irrefl. destruct (c =? 0); reflexivity.
           ++ destruct (Z.eqb_spec n 0); [contradiction|]. simpl.
              destruct (Z.gtb_spec n c); [lia | reflexivity].
      * rewrite Z.gtb_ltb, Z.ltb_irrefl. destruct (c =? 0); reflexivity.
  - split; [reflexivity|]. split.
    + intros n Hn. rewrite get_cache_file_parms_cases, Hfile.
      exists n. split; [reflexivity | lia].
    + reflexivity.
Qed.

(** X11. The cap [get_float_dataframe] loops with is never 0.  When the
    cache file name encodes 0, the cap is [_MAX_PROFILES] for a caller that
    gives no cap and for one that gives any cap from 0 up. *)
Theorem effective_max_profiles_never_zero (self : OxyFloat)
  (max_profiles : option Z) :
  (effective_max_profiles self max_profiles =? 0) = false
  /\ (cache_file_max self = Some 0 ->
      effective_max_profiles self None = _MAX_PROFILES
      /\ forall n, 0 <= n -> effective_max_profiles self (Some n) = _MAX_PROFILES).
Proof.
  unfold effective_max_profiles. split.
  - destruct (_get_cache_file_parms self max_profiles) as [n|]; [|reflexivity].
    unfold or_MAX_PROFILES, py_not.
    destruct (Z.eqb_spec n 0) as [|Hn]; [reflexivity|].
    apply Z.eqb_neq. exact Hn.
  - intros Hfile. rewrite !get_cache_file_parms_cases, Hfile.
    split; [reflexivity|]. intros n Hn.
    rewrite get_cache_file_parms_cases, Hfile.
    destruct (Z.eqb_spec n 0) as [|Hnz]; [reflexivity|]. simpl.
    destruct (Z.gtb_spec n 0); [reflexivity | lia].
Qed.

Lemma digit_value_nonneg (c : ascii) :
  Re.class_matches Re.digit c = true -> 0 <= Str.digit_value c.
Proof.
  destruct c as [[] [] [] [] [] [] [] []]; intros H;
    first [discriminate H | vm_compute; discriminate].
Qed.

Lemma int_of_digits_nonneg (g : string) :
  Re.take_class Re.digit g = g -> 0 <= Str.int_of_digits g.
Proof.
  unfold Str.int_of_digits.
  assert (Hfold : forall a, 0 <= a -> Re.take_class Re.digit g = g ->
            0 <= fold_left (fun acc c => 10 * acc + Str.digit_value c)
                   (list_ascii_of_string g) a);
    [|apply Hfold; lia].
  induction g as [|c g IH]; intros a Ha Hg; simpl in *; [exact Ha|].
  destruct (Re.class_matches Re.digit c) eqn:Hc; [|discriminate].
  injection Hg as Hg. apply IH; [|exact Hg].
  pose proof (digit_value_nonneg c Hc). lia.
Qed.

Lemma take_class_idempotent (cls : Re.char_class) (s : string) :
  Re.take_class cls (Re.take_class cls s) = Re.take_class cls s.
Proof.
  induction s as [|c s IH]; simpl; [reflexivity|].
  destruct (Re.class_matches cls c) eqn:Hc; simpl; [|reflexivity].
  rewrite Hc, IH. reflexivity.
Qed.

Lemma search_group_of_class (lit : string) (cls : Re.char_class) (s g : string) :
  Re.search_lit_group lit cls s = Some g -> Re.take_class cls g = g.
Proof.
  induction s as [|c s IH]; simpl; unfold Re.match_lit_group.
  - destruct (Str.strip_prefix lit "") as [rest|]; [|discriminate].
    destruct (Re.take_class cls rest) eqn:Htake; [discriminate|].
    intros [= <-]. rewrite <- Htake. apply take_class_idempotent.
  - destruct (Str.strip_prefix lit (String c s)) as [rest|]; [|exact IH].
    destruct (Re.take_class cls rest) eqn:Htake; [exact IH|].
    intros [= <-]. rewrite <- Htake. apply take_class_idempotent.
Qed.

(** No cache file name encodes a negative cap. *)
Lemma cache_file_max_nonneg (self : OxyFloat) (c : Z) :
  cache_file_max self = Some c -> 0 <= c.
Proof.
  unfold cache_file_max.
  destruct (cache_file_requested self) as [name|]; [|discriminate].
  destruct (Re.search_lit_group "max_profiles_" Re.digit name) as [g|] eqn:Hg;
    [|discriminate].
  intros [= <-]. apply int_of_digits_nonneg.
  eapply search_group_of_class. exact Hg.
Qed.

(** X12. A negative cap passes through every cache file name unchanged,
    and with it the inner loop processes no locator: it returns the merged
    table it was given and leaves the cache file alone. *)
Theorem negative_cap_processes_nothing (self : OxyFloat) (world : World)
  (wmo : string) (opendap_urls : list string) (n : Z) (float_df : DataFrame)
  (store : Store)
  (Hnegative : n < 0) :
  effective_max_profiles self (Some n) = n
  /\ profiles_loop self world wmo opendap_urls n 0 opendap_urls float_df store
     = (Ok float_df, store).
Proof.
  split.
  - unfold effective_max_profiles. rewrite get_cache_file_parms_cases.
    assert (Hown : or_MAX_PROFILES (Some n) = n).
    { unfold or_MAX_PROFILES, py_not. destruct (Z.eqb_spec n 0); [lia | reflexivity]. }
    destruct (cache_file_max self) as [c|] eqn:Hfile; [|exact Hown].
    pose proof (cache_file_max_nonneg self c Hfile).
    destruct (Z.eqb_spec n 0); [lia|]. simpl.
    destruct (Z.gtb_spec n c); [lia | exact Hown].
  - destruct opendap_urls as [|url rest]; simpl; [reflexivity|].
    destruct (Z.gtb_spec 0 n); [reflexivity | lia].
Qed.

Lemma negative_cap_processes_nothing_witness :
  -1 < 0
  /\ effective_max_profiles
       (Fixture.object_with_cache_file "oxyfloat_age_340_max_profiles_5.hdf")
       (Some (-1)) = -1
  /\ profiles_loop Fixture.default_object (Fixture.world_with Fixture.profile)
       "1900722" [Fixture.locator "1"; Fixture.locator "2"] (-1) 0
       [Fixture.locator "1"; Fixture.locator "2"] Pandas.empty ∅
     = (Ok Pandas.empty, ∅).
Proof.
  assert (Hneg : -1 < 0) by lia.
  split; [exact Hneg|]. split.
  - apply (negative_cap_processes_nothing
             (Fixture.object_with_cache_file "oxyfloat_age_340_max_profiles_5.hdf")
             (Fixture.world_with Fixture.profile) "1900722" [] (-1)
             Pandas.empty ∅ Hneg).
  - apply (negative_cap_processes_nothing Fixture.default_object
             (Fixture.world_with Fixture.profile) "1900722"
             [Fixture.locator "1"; Fixture.locator "2"] (-1)
             Pandas.empty ∅ Hneg).
Defined.

(** ** The shape of a transformed table *)

Lemma replace_column_names (v : string) (vals : list cell)
  (cols : list (string * list cell)) (name : string) :
  name ∈ map fst (Pandas.replace_column v vals cols) ->
  name = v \/ name ∈ map fst cols.
Proof.
  induction cols as [|[n old] cols IH]; simpl.
  - intros Hin. apply list_elem_of_singleton in Hin. left. exact Hin.
  - destruct (String.eqb_spec n v) as [->|Hne]; simpl.
    + intros Hin. right. exact Hin.
    + intros Hin. apply elem_of_cons in Hin as [-> | Hin].
      * right. left.
      * destruct (IH Hin) as [-> | Hrest]; [left; reflexivity | right; right; exact Hrest].
Qed.

Lemma replace_column_nodup (v : string) (vals : list cell)
  (cols : list (string * list cell)) :
  NoDup (map fst cols) -> NoDup (map fst (Pandas.replace_column v vals cols)).
Proof.
  induction cols as [|[n old] cols IH]; simpl; intros Hnodup.
  - repeat constructor. intros Hin. inversion Hin.
  - apply NoDup_cons in Hnodup as [Hfresh Hnodup].
    destruct (String.eqb_spec n v) as [->|Hne]; simpl.
    + apply NoDup_cons. split; assumption.
    + apply NoDup_cons. split; [|apply IH; exact Hnodup].
      intros Hin. apply replace_column_names in Hin as [-> | Hin]; contradiction.
Qed.

Lemma replace_column_lengths (v : string) (vals : list cell)
  (cols : list (string * list cell)) (n : nat) :
  length vals = n ->
  Forall (fun c => length (snd c) = n) cols ->
  Forall (fun c => length (snd c) = n) (Pandas.replace_column v vals cols).
Proof.
  intros Hvals Hcols. induction Hcols as [|[m old] cols Hold Hcols IH]; simpl.
  - repeat constructor. exact Hvals.
  - destruct (String.eqb m v); constructor; assumption.
Qed.

Section TableShape.

Variables (indices : list Pandas.label) (allowed : gset string).

(** What the loop over the variables keeps true of the table it builds. *)
Let built (df : DataFrame) : Prop :=
  (df = Pandas.empty \/ Pandas.df_index df = indices)
  /\ Forall (fun c => length (snd c) = length indices) (Pandas.df_columns df)
  /\ (forall name, name ∈ Pandas.column_names df -> name ∈ allowed)
  /\ NoDup (Pandas.column_names df).

Lemma setitem_built (df : DataFrame) (v : string) (vals : list cell) :
  built df -> v ∈ allowed -> length vals = length indices ->
  built (Pandas.setitem df v (Pandas.mkSeries indices vals)).
Proof.
  intros (Hindex & Hlen & Hnames & Hnodup) Hv Hvals.
  unfold Pandas.setitem, Pandas.column_names in *.
  destruct (Pandas.df_index df) as [|l ls] eqn:Hdf; simpl.
  - split; [right; reflexivity|]. split; [|split].
    + apply replace_column_lengths; [exact Hvals|].
      apply Forall_map. apply Forall_forall. intros c _. simpl.
      apply length_replicate.
    + intros name Hin. apply replace_column_names in Hin as [-> | Hin]; [exact Hv|].
      rewrite map_map in Hin. simpl in Hin. apply Hnames. exact Hin.
    + apply replace_column_nodup. rewrite map_map. simpl. exact Hnodup.
  - destruct Hindex as [-> | Hindex]; [discriminate|].
    split; [right; exact Hindex|]. split; [|split].
    + apply replace_column_lengths; assumption.
    + intros name Hin. apply replace_column_names in Hin as [-> | Hin];
        [exact Hv | apply Hnames; exact Hin].
    + apply replace_column_nodup. exact Hnodup.
Qed.

Lemma make_series_over (ds : Dataset) (v : string) (s : Pandas.Series) :
  make_series ds v indices = Ok s ->
  exists vals, s = Pandas.mkSeries indices vals /\ length vals = length indices.
Proof.
  unfold make_series. destruct (ds_values0 ds v) as [[c|cs]|e]; cbn; try discriminate.
  - intros [= <-]. eexists. split; [reflexivity | apply length_replicate].
  - destruct (Nat.eqb_spec (length cs) (length indices)); [|discriminate].
    intros [= <-]. eexists. split; [reflexivity | assumption].
Qed.

Lemma add_variables_built (ds : Dataset) (vs : list string) :
  (forall v, v ∈ vs -> v ∈ allowed) ->
  forall df out : DataFrame,
    built df -> add_variables ds indices vs df = Ok out -> built out.
Proof.
  induction vs as [|v vs IH]; intros Hvs df out Hdf Hrun; simpl in Hrun.
  - injection Hrun as <-. exact Hdf.
  - assert (Hrest : forall w, w ∈ vs -> w ∈ allowed)
      by (intros w Hw; apply Hvs; right; exact Hw).
    destruct (make_series ds v indices) as [s|e] eqn:Hs.
    + destruct (make_series_over ds v s Hs) as (vals & -> & Hvals).
      apply (IH Hrest _ _ (setitem_built df v vals Hdf (Hvs v ltac:(left)) Hvals) Hrun).
    + destruct e; try discriminate; apply (IH Hrest _ _ Hdf Hrun).
Qed.

End TableShape.

Lemma round_all_length (pressures rounded : list cell) :
  round_all pressures = Ok rounded -> length rounded = length pressures.
Proof.
  revert rounded. induction pressures as [|p ps IH]; intros rounded; simpl.
  - intros [= <-]. reflexivity.
  - destruct (round1 p) as [r|]; cbn; [|discriminate].
    destruct (round_all ps) as [rs|]; cbn; [|discriminate].
    intros [= <-]. simpl. rewrite (IH rs eq_refl). reflexivity.
Qed.

Lemma index_tuples_shape (ds : Dataset) (wmo : string) (indices : list Pandas.label) :
  index_tuples ds wmo = Ok indices ->
  exists pressures,
    ds_vector ds "PRES_ADJUSTED" = Ok pressures
    /\ length indices = length pressures
    /\ Forall (fun l => exists time lon lat pressure,
                 l = [Str wmo; time; lon; lat; pressure]) indices.
Proof.
  unfold index_tuples.
  destruct (ds_vector ds "PRES_ADJUSTED") as [pressures|]; cbn; [|discriminate].
  intros Hrun. exists pressures. split; [reflexivity|].
  destruct pressures as [|p ps].
  - injection Hrun as <-. split; [reflexivity | constructor].
  - remember (round_all (p :: ps)) as r eqn:Hround.
    destruct (ds_scalar ds "JULD") as [juld|]; cbn in Hrun; [|discriminate].
    destruct (ds_scalar ds "LONGITUDE") as [lon|]; cbn in Hrun; [|discriminate].
    destruct (ds_scalar ds "LATITUDE") as [lat|]; cbn in Hrun; [|discriminate].
    destruct r as [rounded|]; cbn in Hrun; [|discriminate].
    injection Hrun as <-. split.
    + rewrite length_map. apply round_all_length. symmetry. exact Hround.
    + apply Forall_map. apply Forall_forall. intros pres _. simpl. eauto.
Qed.

(** X13. Every table [_profile_to_dataframe] returns is rectangular
    (each column has one cell per row), its columns are distinct and are
    among the variables in exactly one of the requested set and the
    coordinate set, its row labels are (wmo, time, lon, lat, pressure)
    tuples for the float, and unless it is the table without rows and
    columns it has one row per pressure level of the dataset. *)
Theorem profile_to_dataframe_shape (self : OxyFloat) (world : World)
  (wmo url : string) (df : DataFrame)
  (Hok : _profile_to_dataframe self world wmo url = Ok df) :
  Shape.rectangular df
  /\ NoDup (Pandas.column_names df)
  /\ (forall name, name ∈ Pandas.column_names df ->
        name ∈ symmetric_difference (variables self) _coordinates)
  /\ Forall (fun l => exists time lon lat pressure,
               l = [Str wmo; time; lon; lat; pressure]) (Pandas.df_index df)
  /\ exists ds pressures,
       open_dataset world url = Ok ds
       /\ ds_vector ds "PRES_ADJUSTED" = Ok pressures
       /\ (df = Pandas.empty \/ length (Pandas.df_index df) = length pressures).
Proof.
  unfold _profile_to_dataframe in Hok.
  destruct (open_dataset world url) as [ds|] eqn:Hopen; cbn in Hok; [|discriminate].
  destruct (check_variables ds (elements (variables self))); cbn in Hok;
    [|discriminate].
  destruct (index_tuples ds wmo) as [indices|] eqn:Hindex; cbn in Hok;
    [|discriminate].
  destruct (index_tuples_shape ds wmo indices Hindex)
    as (pressures & Hpres & Hlen & Hlabels).
  pose proof (add_variables_built indices
                (symmetric_difference (variables self) _coordinates) ds
                (elements (symmetric_difference (variables self) _coordinates))
                (fun v Hv => proj1 (elem_of_elements _ v) Hv)
                Pandas.empty df) as Hbuilt.
  destruct Hbuilt as (Hwhich & Hcols & Hnames & Hnodup); [|exact Hok|].
  { split; [left; reflexivity|]. split; [constructor|].
    split; [intros name Hin; inversion Hin | constructor]. }
  assert (Hrect : Shape.rectangular df).
  { unfold Shape.rectangular.
    destruct Hwhich as [-> | ->]; [constructor | exact Hcols]. }
  split; [exact Hrect|]. split; [exact Hnodup|]. split; [exact Hnames|]. split.
  - destruct Hwhich as [-> | ->]; [constructor | exact Hlabels].
  - exists ds, pressures. split; [reflexivity|]. split; [exact Hpres|].
    destruct Hwhich as [-> | Hidx]; [left; reflexivity | right; congruence].
Qed.

Lemma profile_to_dataframe_shape_witness :
  _profile_to_dataframe Fixture.default_object (Fixture.world_with Fixture.profile)
    "1900722" (Fixture.locator "1") = Ok Fixture.table
  /\ Shape.rectangular Fixture.table
  /\ NoDup (Pandas.column_names Fixture.table).
Proof.
  pose proof (profile_to_dataframe_shape Fixture.default_object
                (Fixture.world_with Fixture.profile) "1900722"
                (Fixture.locator "1") Fixture.table
                (transform_profile (Fixture.locator "1")))
    as (Hrect & Hnodup & _).
  split; [apply transform_profile|]. split; assumption.
Defined.

(** ** Oxygen not required *)

(** X14. With [oxygen_required=False] there is no oxygen validation:
    every table the transform returns is stored under the key and returned
    as it is, with or without an oxygen column. *)
Theorem save_profile_oxygen_not_required (self : OxyFloat) (world : World)
  (url : string) (count : Z) (opendap_urls : list string) (wmo key : string)
  (store : Store) (df : DataFrame)
  (Hoptional : _oxygen_required self = false)
  (Htransform : _profile_to_dataframe self world wmo url = Ok df) :
  _save_profile self world url count opendap_urls wmo key store
  = (Ok df, <[key := df]> store).
Proof.
  rewrite save_profile_of_body. unfold transform_and_validate.
  rewrite Htransform, Hoptional. reflexivity.
Qed.

Lemma save_profile_oxygen_not_required_witness :
  _oxygen_required Fixture.oxygen_optional = false
  /\ _profile_to_dataframe Fixture.oxygen_optional
       (Fixture.world_with Fixture.profile_oxygen_unreadable)
       "1900722" (Fixture.locator "1")
     = Ok Fixture.table_without_oxygen
  /\ _save_profile Fixture.oxygen_optional
       (Fixture.world_with Fixture.profile_oxygen_unreadable)
       (Fixture.locator "1") 0 [Fixture.locator "1"] "1900722"
       (Fixture.key_of "1") ∅
     = (Ok Fixture.table_without_oxygen,
        <[Fixture.key_of "1" := Fixture.table_without_oxygen]> ∅).
Proof.
  assert (Htransform :
    _profile_to_dataframe Fixture.oxygen_optional
      (Fixture.world_with Fixture.profile_oxygen_unreadable)
      "1900722" (Fixture.locator "1")
    = Ok Fixture.table_without_oxygen) by (vm_compute; reflexivity).
  split; [reflexivity|]. split; [exact Htransform|].
  exact (save_profile_oxygen_not_required Fixture.oxygen_optional
           (Fixture.world_with Fixture.profile_oxygen_unreadable)
           (Fixture.locator "1") 0 [Fixture.locator "1"] "1900722"
           (Fixture.key_of "1") ∅ Fixture.table_without_oxygen
           eq_refl Htransform).
Defined.

(** ** The shared tables: status and metadata index *)

(** X15. When the status table is not in the cache file and the HTTP
    read of the status URL ends in an exception (a connection error
    included), [get_oxy_floats_from_status] raises that exception and
    leaves the cache file as it was. *)
Theorem status_unavailable (self : OxyFloat) (world : World) (age_gte : Z)
  (store : Store) (e : exn)
  (Hmiss : store !! _STATUS = None)
  (Hfail : requests_get world (status_url self) = Raise e) :
  get_oxy_floats_from_status self world age_gte store = (Raise e, store).
Proof.
  unfold get_oxy_floats_from_status. unfold mbind at 1, M_bind at 1.
  rewrite read_through_outcome, Hmiss.
  unfold _status_to_df. rewrite Hfail. reflexivity.
Qed.

Lemma status_unavailable_witness :
  (∅ : Store) !! _STATUS = None
  /\ requests_get (Fixture.world_with Fixture.profile) "http://elsewhere/argo_all.txt"
     = Raise ConnectionError
  /\ get_oxy_floats_from_status
       (mkOxyFloat "http://elsewhere/argo_all.txt"
          (global_url Fixture.default_object) (thredds_url Fixture.default_object)
          (variables Fixture.default_object) true None
          (cache_file Fixture.default_object))
       (Fixture.world_with Fixture.profile) 340 ∅
     = (Raise ConnectionError, ∅).
Proof.
  split; [reflexivity|]. split; [reflexivity|].
  exact (status_unavailable
           (mkOxyFloat "http://elsewhere/argo_all.txt"
              (global_url Fixture.default_object) (thredds_url Fixture.default_object)
              (variables Fixture.default_object) true None
              (cache_file Fixture.default_object))
           (Fixture.world_with Fixture.profile) 340 ∅ ConnectionError
           eq_refl eq_refl).
Defined.

(** X16. When the metadata index is not in the cache file and reading
    the metadata URL ends in an exception, [get_dac_urls] and with it
    [get_float_dataframe] raise that exception: no catalog is read, no
    profile is fetched and the cache file is left as it was. *)
Theorem metadata_unavailable (self : OxyFloat) (world : World)
  (wmo_list : list string) (max_profiles : option Z) (store : Store) (e : exn)
  (Hmiss : store !! _GLOBAL_META = None)
  (Hfail : urlopen world (global_url self) = Raise e) :
  get_dac_urls self world wmo_list store = (Raise e, store)
  /\ get_float_dataframe self world wmo_list max_profiles store = (Raise e, store).
Proof.
  assert (Hdac : get_dac_urls self world wmo_list store = (Raise e, store)).
  { rewrite get_dac_urls_steps, read_through_outcome, Hmiss.
    unfold _global_meta_to_df. rewrite Hfail. reflexivity. }
  split; [exact Hdac|].
  unfold get_float_dataframe, mbind, M_bind. rewrite Hdac. reflexivity.
Qed.

Lemma metadata_unavailable_witness :
  (∅ : Store) !! _GLOBAL_META = None
  /\ urlopen Fixture.timing_out (global_url Fixture.default_object) = Raise IOError
  /\ get_float_dataframe Fixture.default_object Fixture.timing_out
       ["1900722"] None ∅
     = (Raise IOError, ∅).
Proof.
  split; [reflexivity|]. split; [reflexivity|].
  apply (metadata_unavailable Fixture.default_object Fixture.timing_out
           ["1900722"] None ∅ IOError (lookup_empty _) eq_refl).
Defined.

(** X17. When [get_oxy_floats_from_status] has returned, the status
    table is in the cache file, no earlier entry has changed, and the same
    call on that file (or on that file with more entries) returns the same
    list without reading the status URL and without changing the file. *)
Theorem get_oxy_floats_from_status_rerun (self : OxyFloat) (world world' : World)
  (age_gte : Z) (store store1 store2 : Store) (floats : list cell)
  (Hrun : get_oxy_floats_from_status self world age_gte store = (Ok floats, store1))
  (Hlater : store1 ⊆ store2) :
  is_Some (store1 !! _STATUS)
  /\ store ⊆ store1
  /\ get_oxy_floats_from_status self world' age_gte store2 = (Ok floats, store2).
Proof.
  unfold get_oxy_floats_from_status in *.
  unfold mbind at 1, M_bind at 1 in Hrun.
  destruct (try_except (_get_df self _STATUS) KeyError
              (fetched ← lift (_status_to_df self world);
               _ ← _put_df self fetched _STATUS;
               _get_df self _STATUS) store)
    as [[df|e] sta] eqn:Hread; [|discriminate].
  pose proof (read_through_keeps self _STATUS (_status_to_df self world) store)
    as Hkeeps.
  rewrite Hread in Hkeeps. simpl in Hkeeps.
  pose proof (read_through_stored self _STATUS _ store sta df Hread) as Hthere.
  assert (Htail : forall st : Store,
            (odf ← lift (Pandas.query_oxy df age_gte);
             wmo ← lift (Pandas.getitem odf "WMO");
             mret (Pandas.tolist wmo)) st
            = ((odf ← Pandas.query_oxy df age_gte;
                wmo ← Pandas.getitem odf "WMO";
                Ok (Pandas.tolist wmo)), st)).
  { intros st. unfold mbind, M_bind, result_bind, lift, mret, M_ret.
    destruct (Pandas.query_oxy df age_gte) as [odf|]; [|reflexivity].
    destruct (Pandas.getitem odf "WMO"); reflexivity. }
  rewrite Htail in Hrun. injection Hrun as Hfloats <-.
  split; [|split; [exact Hkeeps|]].
  - rewrite Hthere. eauto.
  - unfold mbind at 1, M_bind at 1.
    rewrite (read_through_hit_later self _STATUS _ (_status_to_df self world')
               store sta store2 df Hread Hlater).
    rewrite Htail, Hfloats. reflexivity.
Qed.

Lemma get_oxy_floats_from_status_rerun_witness :
  get_oxy_floats_from_status Fixture.default_object
    (Fixture.world_with Fixture.profile) 340 ∅
  = (Ok [Spec.int_cell 1], {[ _STATUS := Fixture.status_table ]})
  /\ get_oxy_floats_from_status Fixture.default_object Fixture.timing_out 340
       {[ _STATUS := Fixture.status_table ]}
     = (Ok [Spec.int_cell 1], {[ _STATUS := Fixture.status_table ]}).
Proof.
  assert (Hrun : get_oxy_floats_from_status Fixture.default_object
                   (Fixture.world_with Fixture.profile) 340 ∅
                 = (Ok [Spec.int_cell 1], {[ _STATUS := Fixture.status_table ]}))
    by (vm_compute; reflexivity).
  split; [exact Hrun|].
  apply (get_oxy_floats_from_status_rerun Fixture.default_object
           (Fixture.world_with Fixture.profile) Fixture.timing_out 340
           ∅ _ _ [Spec.int_cell 1] Hrun).
  reflexivity.
Defined.

(** ** Locators that share a key *)

(** X18. Two locators with the same key share one cache entry: once the
    first has been processed, the second is served the first one's table
    from the cache file, whatever dataset is behind it, and nothing is
    fetched or stored for it. *)
Theorem colliding_locators_share_entry (self : OxyFloat) (world world' : World)
  (wmo wmo' : string) (opendap_urls opendap_urls' : list string) (i j : Z)
  (url1 url2 : string) (float_df float_df' out : DataFrame)
  (store store1 : Store)
  (Hkey : _url_to_naturalname self url1 = _url_to_naturalname self url2)
  (Hfirst : process_profile self world wmo opendap_urls i url1 float_df store
            = (Ok out, store1)) :
  exists df,
    out = Pandas.append float_df df
    /\ process_profile self world' wmo' opendap_urls' j url2 float_df' store1
       = (Ok (Pandas.append float_df' df), store1).
Proof.
  destruct (process_profile_outcome self world wmo opendap_urls i url1 float_df
              store) as [_ Hok].
  destruct (Hok out store1 Hfirst) as (df & Hstored & ->).
  exists df. split; [reflexivity|].
  apply process_profile_hit. rewrite <- Hkey. exact Hstored.
Qed.

Lemma colliding_locators_share_entry_witness :
  _url_to_naturalname Fixture.default_object "http://h/a/b.nc"
  = _url_to_naturalname Fixture.default_object "http://h/a-b.nc"
  /\ process_profile Fixture.default_object (Fixture.world_with Fixture.profile)
       "1900722" ["http://h/a/b.nc"] 0 "http://h/a/b.nc" Pandas.empty ∅
     = (Ok (Pandas.append Pandas.empty Fixture.table),
        {[ "httphabnc" := Fixture.table ]})
  /\ exists df,
       Pandas.append Pandas.empty Fixture.table = Pandas.append Pandas.empty df
       /\ process_profile Fixture.default_object
            (Fixture.world_with Fixture.profile_oxygen_null)
            "5900001" ["http://h/a-b.nc"] 0 "http://h/a-b.nc" Pandas.empty
            {[ "httphabnc" := Fixture.table ]}
          = (Ok (Pandas.append Pandas.empty df), {[ "httphabnc" := Fixture.table ]}).
Proof.
  assert (Hfirst :
    process_profile Fixture.default_object (Fixture.world_with Fixture.profile)
      "1900722" ["http://h/a/b.nc"] 0 "http://h/a/b.nc" Pandas.empty ∅
    = (Ok (Pandas.append Pandas.empty Fixture.table),
       {[ "httphabnc" := Fixture.table ]})) by (vm_compute; reflexivity).
  split; [reflexivity|]. split; [exact Hfirst|].
  exact (colliding_locators_share_entry Fixture.default_object
           (Fixture.world_with Fixture.profile)
           (Fixture.world_with Fixture.profile_oxygen_null)
           "1900722" "5900001" ["http://h/a/b.nc"] ["http://h/a-b.nc"] 0 0
           "http://h/a/b.nc" "http://h/a-b.nc" Pandas.empty Pandas.empty _ ∅ _
           eq_refl Hfirst).
Defined.
